(** * Mortgage pre-approval API: the decision logic and its contracts

    A shallow embedding of [app/models.py], [app/auth.py] and [app/main.py].

    - Python [float] is IEEE 754 binary64: Rocq's primitive [float], whose
      division, product and comparisons are the hardware ones.
    - Python [int] is [Z]; a [str] is the [string] of the bytes of its UTF-8
      encoding, and its length is the number of its code points.
    - A raised exception is the [Raise] case of [result]; code that may
      raise is sequenced with [x <- e ;; k].
    - The database table is the list of its rows, threaded through the
      handlers that read or write it. *)

From Stdlib Require Import ZArith QArith List String Ascii Bool Lia Floats DecimalString.
From Stdlib Require Uint63.
Import ListNotations.
Open Scope Z_scope.

(** ** Exceptions *)

Inductive exn : Type :=
| ValueError (msg : string)
| HTTPException (status_code : Z) (detail : string)
| OverflowError (msg : string)
| IntegrityError (msg : string)
| OperationalError (msg : string).

Inductive result (A : Type) : Type :=
| Ok (a : A)
| Raise (e : exn).

Arguments Ok {A} a.
Arguments Raise {A} e.

Definition bind {A B : Type} (r : result A) (k : A -> result B) : result B :=
  match r with
  | Ok a => k a
  | Raise e => Raise e
  end.

Notation "x <- e ;; k" := (bind e (fun x => k))
  (at level 61, e at next level, right associativity).

(** ** Built-ins on [float] and [int]

    [round(x, ndigits)] is CPython's [float.__round__]: a finite [x] is
    printed exactly rounded to [ndigits] places after the point, ties to the
    even digit, and the decimal string is read back as the nearest double;
    zeros, infinities and nan are returned as they are. With two places the
    decimal read back is never beyond the largest double (doubles from
    [2 ^ 52] on are integers, printed and read back as themselves), so the
    [OverflowError] of the read-back does not arise and [py_round] is
    total. *)

(** Nearest integer to [n / d] for [0 <= n] and [0 < d], ties to even. *)
Definition round_half_even (n d : Z) : Z :=
  let (q, r) := Z.div_eucl n d in
  match Z.compare (2 * r) d with
  | Lt => q
  | Eq => if Z.even q then q else q + 1
  | Gt => q + 1
  end.

(** The double nearest to [n / d], ties to the even mantissa: the IEEE
    quotient of the two integers, taken as exact mantissas. *)
Definition nearest_double (s : bool) (n d : positive) : float :=
  SF2Prim (SFdiv prec emax (S754_finite s n 0) (S754_finite false d 0)).

(** Reading the decimal [digits * 10 ^ exp10], with sign [s]. *)
Definition strtod (s : bool) (digits : Z) (exp10 : Z) : float :=
  match digits with
  | Zpos p =>
      match exp10 with
      | Zneg k => nearest_double s p (Z.to_pos (10 ^ Zpos k))
      | _ => nearest_double s (Z.to_pos (Zpos p * 10 ^ exp10)) 1
      end
  | _ => if s then neg_zero else zero
  end.

(** Printing [m * 2 ^ e] with [ndigits] places: the integer made of the
    printed digits, so that the printed value is that integer over
    [10 ^ ndigits]. *)
Definition dtoa_fixed (m : positive) (e : Z) (ndigits : Z) : Z :=
  match e with
  | Zneg k => round_half_even (Zpos m * 10 ^ ndigits) (2 ^ Zpos k)
  | _ => Zpos m * 2 ^ e * 10 ^ ndigits
  end.

Definition py_round (x : float) (ndigits : Z) : float :=
  match Prim2SF x with
  | S754_finite s m e => strtod s (dtoa_fixed m e ndigits) (- ndigits)
  | _ => x
  end.

(** [len] of a [str]: the number of its code points, which are the bytes
    of the encoding that do not continue a character (those of the form
    [10xxxxxx] do). *)
Definition continuation_byte (c : ascii) : bool :=
  match c with
  | Ascii _ _ _ _ _ _ b6 b7 => b7 && negb b6
  end.

Fixpoint py_len (s : string) : Z :=
  match s with
  | EmptyString => 0
  | String c s' => (if continuation_byte c then 0 else 1) + py_len s'
  end.

(** [str] of an [int], as an f-string field prints it. *)
Definition str_int (z : Z) : string := NilZero.string_of_int (Z.to_int z).

(** [str] of a [float] (its [repr]): the shortest digit string that reads
    back as the same double, the closest one when several do, in fixed
    notation when the decimal point falls within the sixteen digits and in
    exponent notation otherwise. *)

Definition pow10_le (L : Z) (num den : Z) : bool :=
  match L with
  | Zneg k => den <=? num * 10 ^ Zpos k
  | _ => 10 ^ L * den <=? num
  end.

(** Steps [L] up while [10 ^ (L + 1) <= num / den]. *)
Fixpoint log10_floor (fuel : nat) (L : Z) (num den : Z) : Z :=
  match fuel with
  | O => L
  | S fuel' =>
      if pow10_le (L + 1) num den then log10_floor fuel' (L + 1) num den else L
  end.

(** [(num / den) / 10 ^ p] as a fraction. *)
Definition scale10 (num den : Z) (p : Z) : Z * Z :=
  match p with
  | Zneg k => (num * 10 ^ Zpos k, den)
  | _ => (num, den * 10 ^ p)
  end.

(** Tries one more digit at each step: the two decimals [f * 10 ^ p] and
    [(f + 1) * 10 ^ p] around [num / den] are kept when they read back as
    [x], and the closer one is chosen. *)
Fixpoint shortest_digits (fuel : nat) (x : float) (num den : Z) (p : Z)
  : Z * Z :=
  let (n', d') := scale10 num den p in
  let f := n' / d' in
  let c := f + 1 in
  let okf := PrimFloat.Leibniz.eqb (strtod false f p) x in
  let okc := PrimFloat.Leibniz.eqb (strtod false c p) x in
  let pick :=
    match okf, okc with
    | true, true =>
        match Z.compare (2 * (n' mod d')) d' with
        | Lt => Some f
        | Gt => Some c
        | Eq => Some (if Z.even f then f else c)
        end
    | true, false => Some f
    | false, true => Some c
    | false, false => None
    end in
  match pick with
  | Some D => (D, p)
  | None =>
      match fuel with
      | O => (round_half_even n' d', p)
      | S fuel' => shortest_digits fuel' x num den (p - 1)
      end
  end.

Fixpoint strip_zeros (fuel : nat) (D p : Z) : Z * Z :=
  match fuel with
  | O => (D, p)
  | S fuel' =>
      if (0 <? D) && (D mod 10 =? 0)
      then strip_zeros fuel' (D / 10) (p + 1)
      else (D, p)
  end.

(** The shortest digits [D] and exponent [p] with [D * 10 ^ p] reading back
    as [x = m * 2 ^ e]; seventeen digits always do. *)
Definition dtoa_shortest (x : float) (m : positive) (e : Z) : Z * Z :=
  let (num, den) :=
    match e with
    | Zneg k => (Zpos m, 2 ^ Zpos k)
    | _ => (Zpos m * 2 ^ e, 1)
    end in
  let L := log10_floor 4 ((e + Z.log2 (Zpos m)) * 30103 / 100000 - 2) num den in
  let (D, p) := shortest_digits 16 x num den L in
  strip_zeros 17 D p.

Fixpoint zeros (n : nat) : string :=
  match n with
  | O => EmptyString
  | S n' => String "0" (zeros n')
  end.

Definition fixed_notation (ds : string) (decpt : Z) : string :=
  let nd := Z.of_nat (String.length ds) in
  if decpt <=? 0 then ("0." ++ zeros (Z.to_nat (- decpt)) ++ ds)%string
  else if decpt <? nd then
    (substring 0 (Z.to_nat decpt) ds ++ "." ++
     substring (Z.to_nat decpt) (Z.to_nat (nd - decpt)) ds)%string
  else (ds ++ zeros (Z.to_nat (decpt - nd)) ++ ".0")%string.

Definition exp_notation (ds : string) (decpt : Z) : string :=
  let nd := Z.of_nat (String.length ds) in
  let ex := decpt - 1 in
  let frac :=
    if 1 <? nd then ("." ++ substring 1 (Z.to_nat (nd - 1)) ds)%string
    else ""%string in
  let sign := if ex <? 0 then "-"%string else "+"%string in
  let pad := if Z.abs ex <? 10 then "0"%string else ""%string in
  (substring 0 1 ds ++ frac ++ "e" ++ sign ++ pad ++ str_int (Z.abs ex))%string.

Definition str_float (x : float) : string :=
  match Prim2SF x with
  | S754_nan => "nan"%string
  | S754_infinity s => if s then "-inf"%string else "inf"%string
  | S754_zero s => if s then "-0.0"%string else "0.0"%string
  | S754_finite s m e =>
      let (D, p) := dtoa_shortest (abs x) m e in
      let ds := str_int D in
      let decpt := p + Z.of_nat (String.length ds) in
      let body :=
        if (-4 <? decpt) && (decpt <=? 16)
        then fixed_notation ds decpt
        else exp_notation ds decpt in
      if s then ("-" ++ body)%string else body
  end.

(** ** [app/models.py]: the request, response and table models *)

Module LoanApplicationRequest.
Record t : Type := Build {
  applicant_name : string;
  monthly_income : float;
  monthly_debts : float;
  credit_score : Z;
  loan_amount : float
}.
End LoanApplicationRequest.

Module LoanDecisionResponse.
Record t : Type := Build {
  decision : string;
  message : string;
  dti_ratio : float;
  credit_score : Z
}.
End LoanDecisionResponse.

Definition datetime : Type := Z.

Module LoanApplication.
Record t : Type := Build {
  id : option Z;
  applicant_name : string;
  monthly_income : float;
  monthly_debts : float;
  credit_score : Z;
  loan_amount : float;
  dti_ratio : float;
  decision : string;
  decision_message : string;
  created_at : datetime
}.
End LoanApplication.

(** *** Validation of [LoanApplicationRequest]

    Each field is checked against the constraints of its [Field(...)]; a
    field that fails contributes one error carrying its name, and the errors
    of all fields are reported together. *)

Inductive error_type : Type :=
| string_too_short
| string_too_long
| greater_than
| greater_than_equal
| less_than_equal
| value_error.

Record ErrorDetails : Type := {
  type : error_type;
  loc : string
}.

(** [str] with [min_length] and [max_length]. *)
Definition check_str (loc : string) (min_length max_length : Z) (v : string)
  : list ErrorDetails :=
  let n := py_len v in
  if n <? min_length then [{| type := string_too_short; loc := loc |}]
  else if max_length <? n then [{| type := string_too_long; loc := loc |}]
  else [].

(** [float] with [gt]. *)
Definition check_float_gt (loc : string) (gt : float) (v : float)
  : list ErrorDetails :=
  if (gt <? v)%float then [] else [{| type := greater_than; loc := loc |}].

(** [float] with [ge]. *)
Definition check_float_ge (loc : string) (ge : float) (v : float)
  : list ErrorDetails :=
  if (ge <=? v)%float then [] else [{| type := greater_than_equal; loc := loc |}].

(** The [field_validator] of [credit_score]. *)
Definition validate_credit_score (v : Z) : result Z :=
  if (v <? 300) || (850 <? v)
  then Raise (ValueError "Credit score must be between 300 and 850")
  else Ok v.

(** [int] with [ge] and [le], then the field's validator, which runs on a
    value that passed the constraints. *)
Definition check_credit_score (loc : string) (ge le : Z) (v : Z)
  : list ErrorDetails :=
  if v <? ge then [{| type := greater_than_equal; loc := loc |}]
  else if le <? v then [{| type := less_than_equal; loc := loc |}]
  else
    match validate_credit_score v with
    | Ok _ => []
    | Raise _ => [{| type := value_error; loc := loc |}]
    end.

Definition validation_errors (app : LoanApplicationRequest.t)
  : list ErrorDetails :=
  check_str "applicant_name" 2 100 (LoanApplicationRequest.applicant_name app)
  ++ check_float_gt "monthly_income" 0 (LoanApplicationRequest.monthly_income app)
  ++ check_float_ge "monthly_debts" 0 (LoanApplicationRequest.monthly_debts app)
  ++ check_credit_score "credit_score" 300 850 (LoanApplicationRequest.credit_score app)
  ++ check_float_gt "loan_amount" 0 (LoanApplicationRequest.loan_amount app).

(** Building a request from field values: the request itself, or the
    errors of the fields that failed. *)
Definition model_validate (app : LoanApplicationRequest.t)
  : list ErrorDetails + LoanApplicationRequest.t :=
  match validation_errors app with
  | [] => inr app
  | errors => inl errors
  end.


(** *** The business logic *)

Definition calculate_dti (monthly_debts monthly_income : float) : result float :=
  if (monthly_income <=? 0)%float then
    Raise (ValueError "Monthly income must be greater than zero")
  else
    let dti := ((monthly_debts / monthly_income) * 100)%float in
    Ok (py_round dti 2).

Definition evaluate_application (application : LoanApplicationRequest.t)
  : result LoanDecisionResponse.t :=
  dti <- calculate_dti (LoanApplicationRequest.monthly_debts application)
                       (LoanApplicationRequest.monthly_income application) ;;
  if LoanApplicationRequest.credit_score application <? 600 then
    Ok {| LoanDecisionResponse.decision := "declined";
          LoanDecisionResponse.message :=
            "Credit score of "
            ++ str_int (LoanApplicationRequest.credit_score application)
            ++ " is below minimum requirement of 600.";
          LoanDecisionResponse.dti_ratio := dti;
          LoanDecisionResponse.credit_score :=
            LoanApplicationRequest.credit_score application |}
  else if (45 <? dti)%float then
    Ok {| LoanDecisionResponse.decision := "declined";
          LoanDecisionResponse.message :=
            "Debt-to-income ratio of " ++ str_float dti
            ++ "% exceeds maximum of 45%.";
          LoanDecisionResponse.dti_ratio := dti;
          LoanDecisionResponse.credit_score :=
            LoanApplicationRequest.credit_score application |}
  else
    Ok {| LoanDecisionResponse.decision := "approved";
          LoanDecisionResponse.message :=
            "Applicant approved based on healthy DTI and credit score.";
          LoanDecisionResponse.dti_ratio := dti;
          LoanDecisionResponse.credit_score :=
            LoanApplicationRequest.credit_score application |}.

(** ** [app/auth.py] *)

Section Auth.

(** The key read from the environment when the module is loaded. *)
Variable API_KEY : string.

Definition verify_api_key (api_key : option string) : result string :=
  match api_key with
  | None =>
      Raise (HTTPException 403
               "API Key is missing. Please provide X-API-Key in headers.")
  | Some key =>
      if negb (String.eqb key API_KEY)
      then Raise (HTTPException 403 "Invalid API Key")
      else Ok key
  end.

End Auth.

(** ** [app/main.py]: the handlers

    The table of [LoanApplication] rows is a list, in insertion order. Its
    columns are those of SQLite: an integer is a signed 64-bit number, a
    nan is stored as NULL, which no column of the table admits, and [id] is
    the rowid, which SQLite chooses for a row inserted without one. *)

Definition table : Type := list LoanApplication.t.

Definition int64 (z : Z) : bool := (- 2 ^ 63 <=? z) && (z <? 2 ^ 63).

(** The keys in use. *)
Definition ids (db : table) : list Z :=
  flat_map (fun row => match LoanApplication.id row with
                       | Some i => [i]
                       | None => []
                       end) db.

Definition in_use (i : Z) (db : table) : bool := existsb (Z.eqb i) (ids db).

(** The key that SQLite gives a new row: 1 in an empty table, one more
    than the largest key in use as long as that is below the largest
    integer, and otherwise [draw], the key on which its random search for
    an unused one ends. *)
Definition next_id (draw : Z) (db : table) : Z :=
  match ids db with
  | [] => 1
  | i :: rest =>
      let largest := fold_right Z.max i rest in
      if largest <? 2 ^ 63 - 1 then largest + 1 else draw
  end.

(** The float columns of a row, none of which admits NULL. *)
Definition float_columns (row : LoanApplication.t) : list (string * float) :=
  [("monthly_income", LoanApplication.monthly_income row);
   ("monthly_debts", LoanApplication.monthly_debts row);
   ("loan_amount", LoanApplication.loan_amount row);
   ("dti_ratio", LoanApplication.dti_ratio row)]%string.

(** [session.add], [session.commit] and [session.refresh]: the values are
    bound to the INSERT, which fails on an integer beyond 64 bits; the row
    is refused when a nan would go as NULL into one of its columns; it is
    stored under the key that SQLite gives it, unless no unused key was
    found, and read back with that key. *)
Definition session_add_commit_refresh (row : LoanApplication.t) (draw : Z)
  (db : table) : result (LoanApplication.t * table) :=
  if negb (int64 (LoanApplication.credit_score row)) then
    Raise (OverflowError "Python int too large to convert to SQLite INTEGER")
  else
    match find (fun column => is_nan (snd column)) (float_columns row) with
    | Some (name, _) =>
        Raise (IntegrityError
                 ("NOT NULL constraint failed: loanapplication." ++ name))
    | None =>
        let i := next_id draw db in
        if int64 i && negb (in_use i db) then
          let stored :=
            {| LoanApplication.id := Some i;
               LoanApplication.applicant_name := LoanApplication.applicant_name row;
               LoanApplication.monthly_income := LoanApplication.monthly_income row;
               LoanApplication.monthly_debts := LoanApplication.monthly_debts row;
               LoanApplication.credit_score := LoanApplication.credit_score row;
               LoanApplication.loan_amount := LoanApplication.loan_amount row;
               LoanApplication.dti_ratio := LoanApplication.dti_ratio row;
               LoanApplication.decision := LoanApplication.decision row;
               LoanApplication.decision_message :=
                 LoanApplication.decision_message row;
               LoanApplication.created_at := LoanApplication.created_at row |} in
          Ok (stored, db ++ [stored])
        else Raise (OperationalError "database or disk is full")
    end.

(** The key is bound to the SELECT, which fails on an integer beyond 64
    bits. *)
Definition get_application (application_id : Z) (db : table)
  : result LoanApplication.t :=
  if negb (int64 application_id) then
    Raise (OverflowError "Python int too large to convert to SQLite INTEGER")
  else
    match find (fun row =>
                  match LoanApplication.id row with
                  | Some i => i =? application_id
                  | None => false
                  end) db with
    | Some application => Ok application
    | None =>
        Raise (HTTPException 404
                 ("Application with ID " ++ str_int application_id ++ " not found"))
    end.

Definition simulate_approval (application : LoanApplicationRequest.t)
  : result LoanDecisionResponse.t :=
  decision <- evaluate_application application ;;
  Ok decision.

(** The body returned by [create_application]. *)
Module ApplicationCreated.
Record t : Type := Build {
  id : option Z;
  decision : string;
  message : string;
  dti_ratio : float;
  created_at : datetime
}.
End ApplicationCreated.

(** [utcnow] is the clock reading that the new row's [created_at] takes by
    default, and [draw] the key that SQLite draws when the largest one is
    in use. *)
Definition create_application (application : LoanApplicationRequest.t)
  (utcnow : datetime) (draw : Z) (db : table)
  : result (ApplicationCreated.t * table) :=
  decision <- evaluate_application application ;;
  let db_application :=
    {| LoanApplication.id := None;
       LoanApplication.applicant_name :=
         LoanApplicationRequest.applicant_name application;
       LoanApplication.monthly_income :=
         LoanApplicationRequest.monthly_income application;
       LoanApplication.monthly_debts :=
         LoanApplicationRequest.monthly_debts application;
       LoanApplication.credit_score :=
         LoanApplicationRequest.credit_score application;
       LoanApplication.loan_amount :=
         LoanApplicationRequest.loan_amount application;
       LoanApplication.dti_ratio := LoanDecisionResponse.dti_ratio decision;
       LoanApplication.decision := LoanDecisionResponse.decision decision;
       LoanApplication.decision_message := LoanDecisionResponse.message decision;
       LoanApplication.created_at := utcnow |} in
  stored <- session_add_commit_refresh db_application draw db ;;
  let (db_application, db) := stored in
  Ok ({| ApplicationCreated.id := LoanApplication.id db_application;
         ApplicationCreated.decision := LoanDecisionResponse.decision decision;
         ApplicationCreated.message := LoanDecisionResponse.message decision;
         ApplicationCreated.dti_ratio := LoanDecisionResponse.dti_ratio decision;
         ApplicationCreated.created_at :=
           LoanApplication.created_at db_application |},
      db).


(** *** The two POST routes

    A route first runs its [verify_api_key] dependency, then validates the
    body against [LoanApplicationRequest], answering 422 with the field
    errors when it fails, and only then calls its handler. An exception that
    nothing catches ends the request as a server error. The rendering of
    the returned body as JSON is left out. *)

Inductive http_response (A : Type) : Type :=
| Success (status_code : Z) (body : A)
| HTTPError (status_code : Z) (detail : string)
| UnprocessableEntity (detail : list ErrorDetails)
| ServerError (e : exn).

Arguments Success {A} status_code body.
Arguments HTTPError {A} status_code detail.
Arguments UnprocessableEntity {A} detail.
Arguments ServerError {A} e.

Section Routes.

Variable API_KEY : string.

Definition post_route {A : Type} (status_code : Z)
  (x_api_key : option string) (body : LoanApplicationRequest.t)
  (handler : LoanApplicationRequest.t -> result A) : http_response A :=
  match verify_api_key API_KEY x_api_key with
  | Raise (HTTPException status detail) => HTTPError status detail
  | Raise e => ServerError e
  | Ok _ =>
      match model_validate body with
      | inl errors => UnprocessableEntity errors
      | inr application =>
          match handler application with
          | Ok response => Success status_code response
          | Raise e => ServerError e
          end
      end
  end.

Definition post_simulate (x_api_key : option string)
  (body : LoanApplicationRequest.t) : http_response LoanDecisionResponse.t :=
  post_route 200 x_api_key body simulate_approval.

Definition post_applications (x_api_key : option string)
  (body : LoanApplicationRequest.t) (utcnow : datetime) (draw : Z) (db : table)
  : http_response (ApplicationCreated.t * table) :=
  post_route 201 x_api_key body
    (fun application => create_application application utcnow draw db).

End Routes.

(** ** Notions used in the statements *)

(** The exact value [m * 2 ^ e] lies halfway between two decimals of
    [ndigits] places: [m * 2 ^ e * 10 ^ ndigits = k + 1/2]. *)
Definition halfway (m : positive) (e : Z) (ndigits : Z) (k : Z) : Prop :=
  exists j : positive,
    e = Zneg j /\ 2 * (Zpos m * 10 ^ ndigits) = (2 * k + 1) * 2 ^ Zpos j.

(** The exact value of a double, as a rational. *)
Definition exact_value (x : float) : option Q :=
  match Prim2SF x with
  | S754_zero _ => Some 0%Q
  | S754_finite s m e =>
      Some ((if s then - inject_Z (Zpos m) else inject_Z (Zpos m)) * 2 ^ e)%Q
  | _ => None
  end.

(** The exact quotient [debts / income * 100] lies halfway between two
    decimals of two places: it is [(k + 1/2) / 100]. *)
Definition ratio_halfway (debts income : float) (k : Z) : Prop :=
  exists d i : Q,
    exact_value debts = Some d /\ exact_value income = Some i
    /\ (d / i * 100 * 100 == inject_Z k + (1 # 2))%Q.

(** The request made of the input fields that a row stores. *)
Definition stored_request (row : LoanApplication.t) : LoanApplicationRequest.t :=
  {| LoanApplicationRequest.applicant_name := LoanApplication.applicant_name row;
     LoanApplicationRequest.monthly_income := LoanApplication.monthly_income row;
     LoanApplicationRequest.monthly_debts := LoanApplication.monthly_debts row;
     LoanApplicationRequest.credit_score := LoanApplication.credit_score row;
     LoanApplicationRequest.loan_amount := LoanApplication.loan_amount row |}.


(** The fields of a request, in the order of their declaration. *)
Definition field_names : list string :=
  ["applicant_name"; "monthly_income"; "monthly_debts"; "credit_score";
   "loan_amount"]%string.

(** The value of a field is outside the range that its [Field(...)] gives. *)
Definition out_of_range (app : LoanApplicationRequest.t) (field : string) : bool :=
  let n := py_len (LoanApplicationRequest.applicant_name app) in
  if String.eqb field "applicant_name" then (n <? 2) || (100 <? n)
  else if String.eqb field "monthly_income" then
    negb (0 <? LoanApplicationRequest.monthly_income app)%float
  else if String.eqb field "monthly_debts" then
    negb (0 <=? LoanApplicationRequest.monthly_debts app)%float
  else if String.eqb field "credit_score" then
    (LoanApplicationRequest.credit_score app <? 300)
    || (850 <? LoanApplicationRequest.credit_score app)
  else if String.eqb field "loan_amount" then
    negb (0 <? LoanApplicationRequest.loan_amount app)%float
  else false.

(** Every row has a key, a 64-bit integer, and no two rows have the same
    one. *)
Definition table_ok (db : table) : Prop :=
  NoDup (map LoanApplication.id db)
  /\ Forall (fun row => exists i, LoanApplication.id row = Some i
                                  /\ int64 i = true) db.

(** The ratio, decision and message of a row are those that
    [evaluate_application] gives on the input fields the row stores. *)
Definition row_consistent (row : LoanApplication.t) : Prop :=
  exists decision,
    evaluate_application (stored_request row) = Ok decision
    /\ LoanApplication.dti_ratio row = LoanDecisionResponse.dti_ratio decision
    /\ LoanApplication.decision row = LoanDecisionResponse.decision decision
    /\ LoanApplication.decision_message row
       = LoanDecisionResponse.message decision.

(** A double that is not nan has its sign bit clear. *)
Definition sign_clear (y : spec_float) : bool :=
  match y with
  | S754_nan => true
  | S754_zero s | S754_infinity s | S754_finite s _ _ => negb s
  end.

(** A double that is nan, a zero of either sign, or above zero. *)
Definition not_negative (y : spec_float) : bool :=
  match y with
  | S754_nan | S754_zero _ => true
  | S754_infinity s | S754_finite s _ _ => negb s
  end.

(** A double above zero. *)
Definition above_zero (y : spec_float) : bool :=
  match y with
  | S754_nan | S754_zero _ => false
  | S754_infinity s | S754_finite s _ _ => negb s
  end.

(** A double that is not nan. *)
Definition is_number (y : spec_float) : bool :=
  match y with
  | S754_nan => false
  | _ => true
  end.

(** The input fields of a row pass the validation of a request, and its
    name and decision fit the lengths that [LoanApplication] declares. *)
Definition row_valid (row : LoanApplication.t) : Prop :=
  validation_errors (stored_request row) = []
  /\ py_len (LoanApplication.applicant_name row) <= 100
  /\ py_len (LoanApplication.decision row) <= 20.
(** * Properties *)

(** ** The built-ins on sample values *)

Example round_two_thirds : str_float (py_round ((2 / 3) * 100)%float 2) = "66.67"%string.
Proof. vm_compute. reflexivity. Qed.

Example round_keeps_zero_sign : str_float (py_round (- (1 / 1000))%float 2) = "-0.0"%string.
Proof. vm_compute. reflexivity. Qed.

Example round_keeps_infinity : py_round infinity 2 = infinity.
Proof. vm_compute. reflexivity. Qed.

Example round_keeps_nan : py_round nan 2 = nan.
Proof. vm_compute. reflexivity. Qed.

(** The largest double is an integer: it is printed and read back as
    itself. *)
Example round_largest_double :
  py_round (SF2Prim (S754_finite false 9007199254740991 971)) 2
  = SF2Prim (S754_finite false 9007199254740991 971).
Proof. vm_compute. reflexivity. Qed.

Example str_float_fixed : str_float 50 = "50.0"%string.
Proof. vm_compute. reflexivity. Qed.

Example str_float_exponent :
  str_float (10000000000000000)%float = "1e+16"%string.
Proof. vm_compute. reflexivity. Qed.

Example str_float_small : str_float (1 / 100000)%float = "1e-05"%string.
Proof. vm_compute. reflexivity. Qed.

Example str_int_score : str_int 550 = "550"%string.
Proof. reflexivity. Qed.

(** The length of a [str] is counted in code points: the three bytes of
    U+4E2D are one character. *)
Example len_counts_code_points :
  py_len (String (ascii_of_nat 228)
            (String (ascii_of_nat 184) (String (ascii_of_nat 173) ""))) = 1
  /\ py_len "John Doe" = 8.
Proof. split; reflexivity. Qed.

(** A name of that one character is too short, and a name of thirty-four
    of them, in 102 bytes, is not too long. *)
Example name_of_one_character_rejected :
  check_str "applicant_name" 2 100
    (String (ascii_of_nat 228)
       (String (ascii_of_nat 184) (String (ascii_of_nat 173) "")))
  = [{| type := string_too_short; loc := "applicant_name" |}]
  /\ check_str "applicant_name" 2 100
       (String.concat ""
          (repeat (String (ascii_of_nat 228)
                     (String (ascii_of_nat 184) (String (ascii_of_nat 173) "")))
                  34))
     = [].
Proof. split; vm_compute; reflexivity. Qed.

(** ** Comparisons of doubles *)

Lemma SFcompare_antisym (x y : spec_float) :
  SFcompare y x = option_map CompOpp (SFcompare x y).
Proof.
  destruct x as [sx | sx | | sx mx ex], y as [sy | sy | | sy my ey];
    try destruct sx; try destruct sy; simpl; try reflexivity;
    rewrite (Z.compare_antisym ey ex);
    destruct (ey ?= ex); simpl; try reflexivity;
    change (Pos.compare_cont Eq my mx) with (Pos.compare my mx);
    change (Pos.compare_cont Eq mx my) with (Pos.compare mx my);
    rewrite (Pos.compare_antisym mx my); reflexivity.
Qed.

Lemma ltb_leb_false (x y : float) :
  (x <? y)%float = true -> (y <=? x)%float = false.
Proof.
  rewrite ltb_spec, leb_spec. unfold SFltb, SFleb.
  rewrite (SFcompare_antisym (Prim2SF x) (Prim2SF y)).
  destruct (SFcompare (Prim2SF x) (Prim2SF y)) as [[ | | ] | ];
    simpl; congruence.
Qed.

Lemma leb_ltb_false (x y : float) :
  (x <=? y)%float = true -> (y <? x)%float = false.
Proof.
  rewrite ltb_spec, leb_spec. unfold SFltb, SFleb.
  rewrite (SFcompare_antisym (Prim2SF x) (Prim2SF y)).
  destruct (SFcompare (Prim2SF x) (Prim2SF y)) as [[ | | ] | ];
    simpl; congruence.
Qed.

Lemma ltb_leb (x y : float) :
  (x <? y)%float = true -> (x <=? y)%float = true.
Proof.
  rewrite ltb_spec, leb_spec. unfold SFltb, SFleb.
  destruct (SFcompare (Prim2SF x) (Prim2SF y)) as [[ | | ] | ];
    simpl; congruence.
Qed.

Lemma eqb_leb (x y : float) :
  (x =? y)%float = true -> (x <=? y)%float = true.
Proof.
  rewrite eqb_spec, leb_spec. unfold SFeqb, SFleb.
  destruct (SFcompare (Prim2SF x) (Prim2SF y)) as [[ | | ] | ];
    simpl; congruence.
Qed.

(** ** What a valid request is *)

Lemma app_nil_inv {A : Type} (l1 l2 : list A) :
  l1 ++ l2 = [] -> l1 = [] /\ l2 = [].
Proof.
  destruct l1; simpl; intros H; [ split; [ reflexivity | exact H ] | discriminate H ].
Qed.

Lemma validate_credit_score_in_range (v : Z) :
  (v <? 300) = false -> (850 <? v) = false -> validate_credit_score v = Ok v.
Proof.
  intros Hlo Hhi. unfold validate_credit_score. rewrite Hlo, Hhi. reflexivity.
Qed.

Lemma check_str_nil (loc : string) (lo hi : Z) (v : string) :
  check_str loc lo hi v = [] <-> lo <= py_len v <= hi.
Proof.
  unfold check_str.
  destruct (Z.ltb_spec (py_len v) lo) as [Hlo | Hlo];
    [ | destruct (Z.ltb_spec hi (py_len v)) as [Hhi | Hhi] ];
    split; intros H; try discriminate H; try reflexivity; lia.
Qed.

Lemma check_float_gt_nil (loc : string) (gt v : float) :
  check_float_gt loc gt v = [] <-> (gt <? v)%float = true.
Proof.
  unfold check_float_gt. destruct (gt <? v)%float; split; intros H;
    try discriminate H; reflexivity.
Qed.

Lemma check_float_ge_nil (loc : string) (ge v : float) :
  check_float_ge loc ge v = [] <-> (ge <=? v)%float = true.
Proof.
  unfold check_float_ge. destruct (ge <=? v)%float; split; intros H;
    try discriminate H; reflexivity.
Qed.

Lemma check_credit_score_nil (loc : string) (v : Z) :
  check_credit_score loc 300 850 v = [] <-> 300 <= v <= 850.
Proof.
  unfold check_credit_score, validate_credit_score.
  destruct (Z.ltb_spec v 300) as [Hlo | Hlo];
    [ | destruct (Z.ltb_spec 850 v) as [Hhi | Hhi] ];
    simpl; split; intros H; try discriminate H; try reflexivity; lia.
Qed.

Lemma valid_fields (app : LoanApplicationRequest.t) :
  validation_errors app = [] <->
  (2 <= py_len (LoanApplicationRequest.applicant_name app) <= 100
   /\ (0 <? LoanApplicationRequest.monthly_income app)%float = true
   /\ (0 <=? LoanApplicationRequest.monthly_debts app)%float = true
   /\ 300 <= LoanApplicationRequest.credit_score app <= 850
   /\ (0 <? LoanApplicationRequest.loan_amount app)%float = true).
Proof.
  unfold validation_errors.
  rewrite <- (check_str_nil "applicant_name"), <- (check_float_gt_nil "monthly_income"),
    <- (check_float_ge_nil "monthly_debts"), <- (check_credit_score_nil "credit_score"),
    <- (check_float_gt_nil "loan_amount").
  split.
  - intros H.
    apply app_nil_inv in H. destruct H as [H1 H].
    apply app_nil_inv in H. destruct H as [H2 H].
    apply app_nil_inv in H. destruct H as [H3 H].
    apply app_nil_inv in H. destruct H as [H4 H5].
    auto.
  - intros (H1 & H2 & H3 & H4 & H5). rewrite H1, H2, H3, H4, H5. reflexivity.
Qed.

Lemma valid_income_positive (app : LoanApplicationRequest.t) :
  validation_errors app = [] ->
  (0 <? LoanApplicationRequest.monthly_income app)%float = true.
Proof.
  intros H. apply valid_fields in H. tauto.
Qed.

(** ** [calculate_dti] on a positive income *)

Lemma calculate_dti_positive_income (monthly_debts monthly_income : float) :
  (0 <? monthly_income)%float = true ->
  calculate_dti monthly_debts monthly_income
  = Ok (py_round ((monthly_debts / monthly_income) * 100)%float 2).
Proof.
  intros Hpos. unfold calculate_dti.
  rewrite (ltb_leb_false _ _ Hpos). reflexivity.
Qed.

Lemma calculate_dti_raises (monthly_debts monthly_income : float) (e : exn) :
  calculate_dti monthly_debts monthly_income = Raise e ->
  (monthly_income <=? 0)%float = true
  /\ e = ValueError "Monthly income must be greater than zero".
Proof.
  unfold calculate_dti.
  destruct (monthly_income <=? 0)%float; intros H; inversion H; auto.
Qed.

(** Brings in, as [H], that [calculate_dti] returns on the debts and
    income of a request known to be valid by [Hvalid]. *)
Ltac valid_ratio application Hvalid H :=
  pose proof (calculate_dti_positive_income
                (LoanApplicationRequest.monthly_debts application) _
                (valid_income_positive _ Hvalid)) as H.

(** [evaluate_application] once the ratio is known: the three branches. *)
Lemma evaluate_application_cases (application : LoanApplicationRequest.t) (dti : float) :
  calculate_dti (LoanApplicationRequest.monthly_debts application)
                (LoanApplicationRequest.monthly_income application) = Ok dti ->
  exists decision,
    evaluate_application application = Ok decision
    /\ LoanDecisionResponse.dti_ratio decision = dti
    /\ LoanDecisionResponse.credit_score decision
       = LoanApplicationRequest.credit_score application.
Proof.
  intros Hdti. unfold evaluate_application. rewrite Hdti. simpl.
  destruct (LoanApplicationRequest.credit_score application <? 600);
    [ | destruct (45 <? dti)%float ];
    eexists; (split; [ reflexivity | split; reflexivity ]).
Qed.

(** ** The decision rules *)

(** C1. A valid request whose credit score is below 600 is declined with
    the credit-score message carrying that score, whatever its ratio is:
    the ratio is computed and carried along but not looked at, so this rule
    wins over the ratio rule when both apply. *)
Theorem low_credit_score_declined (application : LoanApplicationRequest.t) :
  validation_errors application = [] ->
  LoanApplicationRequest.credit_score application < 600 ->
  exists dti,
    calculate_dti (LoanApplicationRequest.monthly_debts application)
                  (LoanApplicationRequest.monthly_income application) = Ok dti
    /\ evaluate_application application
       = Ok {| LoanDecisionResponse.decision := "declined";
               LoanDecisionResponse.message :=
                 "Credit score of "
                 ++ str_int (LoanApplicationRequest.credit_score application)
                 ++ " is below minimum requirement of 600.";
               LoanDecisionResponse.dti_ratio := dti;
               LoanDecisionResponse.credit_score :=
                 LoanApplicationRequest.credit_score application |}.
Proof.
  intros Hvalid Hscore.
  valid_ratio application Hvalid Hdti.
  eexists. split; [ exact Hdti | ].
  unfold evaluate_application. rewrite Hdti. simpl.
  apply Z.ltb_lt in Hscore. rewrite Hscore. reflexivity.
Qed.

(** Debts of 2500 on an income of 5000 are a ratio of 50, above 45, and the
    score 550 is below 600: the message is the credit-score one. *)
Lemma low_credit_score_declined_witness :
  exists dti,
    calculate_dti 2500 5000 = Ok dti
    /\ evaluate_application
         (LoanApplicationRequest.Build "Jane Smith" 5000 2500 550 250000)
       = Ok (LoanDecisionResponse.Build "declined"
               "Credit score of 550 is below minimum requirement of 600."
               dti 550).
Proof.
  apply (low_credit_score_declined
           (LoanApplicationRequest.Build "Jane Smith" 5000 2500 550 250000)).
  - vm_compute. reflexivity.
  - simpl. lia.
Defined.

(** C2. A valid request whose credit score is 600 or more is declined with
    the ratio message when its ratio is above 45, and approved when its
    ratio is 45 or less. *)
Theorem credit_ok_decided_by_dti (application : LoanApplicationRequest.t) :
  validation_errors application = [] ->
  600 <= LoanApplicationRequest.credit_score application ->
  exists dti,
    calculate_dti (LoanApplicationRequest.monthly_debts application)
                  (LoanApplicationRequest.monthly_income application) = Ok dti
    /\ ((45 <? dti)%float = true ->
        evaluate_application application
        = Ok {| LoanDecisionResponse.decision := "declined";
                LoanDecisionResponse.message :=
                  "Debt-to-income ratio of " ++ str_float dti
                  ++ "% exceeds maximum of 45%.";
                LoanDecisionResponse.dti_ratio := dti;
                LoanDecisionResponse.credit_score :=
                  LoanApplicationRequest.credit_score application |})
    /\ ((dti <=? 45)%float = true ->
        evaluate_application application
        = Ok {| LoanDecisionResponse.decision := "approved";
                LoanDecisionResponse.message :=
                  "Applicant approved based on healthy DTI and credit score.";
                LoanDecisionResponse.dti_ratio := dti;
                LoanDecisionResponse.credit_score :=
                  LoanApplicationRequest.credit_score application |}).
Proof.
  intros Hvalid Hscore.
  valid_ratio application Hvalid Hdti.
  eexists. split; [ exact Hdti | ].
  assert (Hge : (LoanApplicationRequest.credit_score application <? 600) = false)
    by (apply Z.ltb_ge; exact Hscore).
  unfold evaluate_application. rewrite Hdti. simpl. rewrite Hge.
  split; intros Hcmp.
  - rewrite Hcmp. reflexivity.
  - rewrite (leb_ltb_false _ _ Hcmp). reflexivity.
Qed.

(** The two boundaries at once: a score of exactly 600 and a ratio of
    exactly 45 (debts of 2250 on an income of 5000) are approved. *)
Lemma credit_ok_decided_by_dti_witness :
  calculate_dti 2250 5000 = Ok 45%float
  /\ evaluate_application
       (LoanApplicationRequest.Build "John Doe" 5000 2250 600 250000)
     = Ok (LoanDecisionResponse.Build "approved"
             "Applicant approved based on healthy DTI and credit score."
             45 600).
Proof.
  destruct (credit_ok_decided_by_dti
              (LoanApplicationRequest.Build "John Doe" 5000 2250 600 250000))
    as (dti & Hdti & _ & Happroved).
  - vm_compute. reflexivity.
  - simpl. lia.
  - assert (Hval : dti = 45%float).
    { assert (H : Ok dti = Ok 45%float)
        by (rewrite <- Hdti; vm_compute; reflexivity).
      inversion H. reflexivity. }
    subst dti. split.
    + vm_compute. reflexivity.
    + apply Happroved. vm_compute. reflexivity.
Defined.

(** C3. On a positive income and debts that are not negative,
    [calculate_dti] returns [round(debts / income * 100, 2)]; it is a
    function of its two arguments and nothing else. *)
Theorem calculate_dti_is_round (monthly_debts monthly_income : float) :
  (0 <? monthly_income)%float = true ->
  (0 <=? monthly_debts)%float = true ->
  calculate_dti monthly_debts monthly_income
  = Ok (py_round ((monthly_debts / monthly_income) * 100)%float 2).
Proof.
  intros Hincome _. apply calculate_dti_positive_income. exact Hincome.
Qed.

Lemma calculate_dti_is_round_witness :
  calculate_dti 2 3 = Ok (py_round ((2 / 3) * 100)%float 2)
  /\ str_float (py_round ((2 / 3) * 100)%float 2) = "66.67"%string.
Proof.
  split.
  - apply (calculate_dti_is_round 2 3); vm_compute; reflexivity.
  - vm_compute. reflexivity.
Defined.

(** C4. [calculate_dti] raises exactly when the income is zero or less,
    whatever the debts are, and what it raises is the one [ValueError];
    [evaluate_application] raises exactly what [calculate_dti] raises on the
    request's debts and income, and nothing else. *)
Theorem invalid_income_raises (monthly_debts monthly_income : float)
    (application : LoanApplicationRequest.t) :
  (calculate_dti monthly_debts monthly_income
   = Raise (ValueError "Monthly income must be greater than zero")
   <-> (monthly_income <=? 0)%float = true)
  /\ (forall e, calculate_dti monthly_debts monthly_income = Raise e ->
                e = ValueError "Monthly income must be greater than zero")
  /\ (((monthly_income =? 0)%float = true \/ (monthly_income <? 0)%float = true) ->
      calculate_dti monthly_debts monthly_income
      = Raise (ValueError "Monthly income must be greater than zero"))
  /\ (forall e, evaluate_application application = Raise e
                <-> calculate_dti (LoanApplicationRequest.monthly_debts application)
                                  (LoanApplicationRequest.monthly_income application)
                    = Raise e).
Proof.
  split; [ split | split; [ | split ] ].
  - intros H. apply calculate_dti_raises in H. tauto.
  - intros H. unfold calculate_dti. rewrite H. reflexivity.
  - intros e H. apply calculate_dti_raises in H. tauto.
  - intros [H | H]; [ apply eqb_leb in H | apply ltb_leb in H ];
      unfold calculate_dti; rewrite H; reflexivity.
  - intros e. unfold evaluate_application.
    destruct (calculate_dti (LoanApplicationRequest.monthly_debts application)
                (LoanApplicationRequest.monthly_income application)) as [dti | e'];
      simpl; [ | split; intros H; inversion H; reflexivity ].
    destruct (LoanApplicationRequest.credit_score application <? 600);
      [ | destruct (45 <? dti)%float ]; split; intros H; discriminate H.
Qed.

(** C5. Whatever the outcome, the decision of a valid request carries the
    ratio that [calculate_dti] gives on that request's debts and income,
    and the request's own credit score. *)
Theorem decision_carries_dti_and_score (application : LoanApplicationRequest.t) :
  validation_errors application = [] ->
  exists decision,
    evaluate_application application = Ok decision
    /\ calculate_dti (LoanApplicationRequest.monthly_debts application)
                     (LoanApplicationRequest.monthly_income application)
       = Ok (LoanDecisionResponse.dti_ratio decision)
    /\ LoanDecisionResponse.credit_score decision
       = LoanApplicationRequest.credit_score application.
Proof.
  intros Hvalid.
  valid_ratio application Hvalid Hdti.
  destruct (evaluate_application_cases application _ Hdti)
    as (decision & Heval & Hratio & Hscore).
  exists decision. rewrite Hratio. auto.
Qed.

Lemma decision_carries_dti_and_score_witness :
  exists decision,
    evaluate_application
      (LoanApplicationRequest.Build "Bob Johnson" 5000 2500 720 250000)
    = Ok decision
    /\ calculate_dti 2500 5000 = Ok (LoanDecisionResponse.dti_ratio decision)
    /\ LoanDecisionResponse.credit_score decision = 720.
Proof.
  apply (decision_carries_dti_and_score
           (LoanApplicationRequest.Build "Bob Johnson" 5000 2500 720 250000)).
  vm_compute. reflexivity.
Defined.

(** ** Rounding *)

Lemma round_half_even_tie (n d k : Z) :
  0 < d -> 2 * n = (2 * k + 1) * d ->
  round_half_even n d = if Z.even k then k else k + 1.
Proof.
  intros Hd Htie.
  assert (Hqr : n / d = k /\ n mod d = n - k * d).
  { apply (Z.div_mod_unique d (n / d) k (n mod d) (n - k * d)).
    - left. apply Z.mod_pos_bound. exact Hd.
    - left. nia.
    - rewrite <- (Z.div_mod n d) by lia. lia. }
  destruct Hqr as [Hq Hr].
  unfold round_half_even, Z.div, Z.modulo in *.
  destruct (Z.div_eucl n d) as [q r]. simpl in Hq, Hr. subst q r.
  replace (2 * (n - k * d)) with d by nia.
  rewrite Z.compare_refl. reflexivity.
Qed.

Lemma round_half_even_nearest (n d : Z) :
  0 < d -> 2 * Z.abs (n - round_half_even n d * d) <= d.
Proof.
  intros Hd.
  pose proof (Z.div_mod n d ltac:(lia)) as Hdiv.
  pose proof (Z.mod_pos_bound n d Hd) as Hmod.
  unfold round_half_even, Z.div, Z.modulo in *.
  destruct (Z.div_eucl n d) as [q r]. simpl in Hdiv, Hmod.
  destruct (Z.compare_spec (2 * r) d) as [Heq | Hlt | Hgt];
    [ destruct (Z.even q) | | ]; nia.
Qed.

(** C6. [round] breaks ties to even on the double it is handed, the
    ratio [(debts / income) * 100] of exact value [m * 2 ^ e]: the result
    reads [N / 100] for an integer [N] nearest to a hundred times that
    value, and when the double lies exactly halfway between the two-place
    decimals [k / 100] and [(k + 1) / 100] (its third decimal is a 5 and
    nothing follows), [N] is the even one of [k] and [k + 1]. *)
Theorem calculate_dti_rounds_half_to_even
    (monthly_debts monthly_income : float) (s : bool) (m : positive) (e : Z) :
  (0 <? monthly_income)%float = true ->
  Prim2SF ((monthly_debts / monthly_income) * 100)%float = S754_finite s m e ->
  exists N,
    calculate_dti monthly_debts monthly_income = Ok (strtod s N (-2))
    /\ (0 <= e -> N = Zpos m * 2 ^ e * 100)
    /\ (forall j, e = Zneg j ->
          2 * Z.abs (Zpos m * 100 - N * 2 ^ Zpos j) <= 2 ^ Zpos j)
    /\ (forall k, halfway m e 2 k -> (N = k \/ N = k + 1) /\ Z.even N = true).
Proof.
  intros Hincome Hdti.
  exists (dtoa_fixed m e 2). split; [ | split; [ | split ] ].
  - rewrite (calculate_dti_positive_income _ _ Hincome).
    unfold py_round. rewrite Hdti. reflexivity.
  - intros He. unfold dtoa_fixed. destruct e; (reflexivity || lia).
  - intros j He. subst e. unfold dtoa_fixed.
    apply round_half_even_nearest. apply Z.pow_pos_nonneg; lia.
  - intros k (j & He & Htie). subst e. unfold dtoa_fixed.
    rewrite (round_half_even_tie _ _ k);
      [ | apply Z.pow_pos_nonneg; lia | exact Htie ].
    destruct (Z.even k) eqn:Hk; [ auto | ].
    split; [ auto | ]. rewrite Z.even_add, Hk. reflexivity.
Qed.

(** The double 0.125 is halfway between 0.12 and 0.13. *)
Example halfway_0125 : halfway 4503599627370496 (-55) 2 12.
Proof. exists 55%positive. split; vm_compute; reflexivity. Qed.

(** 1 / 800 * 100 is the double 0.125, of mantissa [2 ^ 52] and exponent
    -55: the result reads 0.12, the even one of 0.12 and 0.13. *)
Lemma calculate_dti_rounds_half_to_even_witness :
  calculate_dti 1 800 = Ok (strtod false 12 (-2)).
Proof.
  destruct (calculate_dti_rounds_half_to_even 1 800 false 4503599627370496 (-55))
    as (N & Hresult & _ & _ & Htie).
  - vm_compute. reflexivity.
  - vm_compute. reflexivity.
  - destruct (Htie 12 halfway_0125) as [[HN | HN] Heven]; subst N.
    + exact Hresult.
    + vm_compute in Heven. discriminate Heven.
Defined.

(** The two ties as Python prints them: 0.125 goes down to 0.12 and 0.375
    goes up to 0.38. *)
Example round_tie_down :
  match calculate_dti 1 800 with
  | Ok r => str_float r = "0.12"%string
  | Raise _ => False
  end.
Proof. vm_compute. reflexivity. Qed.

Example round_tie_up :
  match calculate_dti 3 800 with
  | Ok r => str_float r = "0.38"%string
  | Raise _ => False
  end.
Proof. vm_compute. reflexivity. Qed.

(** A tie of the exact quotient is not a tie of the double. The exact ratio
    of debts of 1015 to an income of 100000 is 1.015, halfway between 1.01
    and 1.02; the double that the division and the product give lies just
    below it, so the result reads 1.01, whose second decimal is odd, and
    not 1.02. *)
Lemma decimal_tie_is_not_rounded_to_even :
  ratio_halfway 1015 100000 101
  /\ Z.even 101 = false
  /\ calculate_dti 1015 100000 = Ok (strtod false 101 (-2))
  /\ strtod false 101 (-2) <> strtod false (101 + 1) (-2).
Proof.
  split; [ | split; [ | split ] ].
  - unfold ratio_halfway. do 2 eexists.
    split; [ vm_compute; reflexivity | ].
    split; [ vm_compute; reflexivity | ].
    vm_compute. reflexivity.
  - reflexivity.
  - vm_compute. reflexivity.
  - intros H. apply (f_equal Prim2SF) in H. vm_compute in H. discriminate H.
Qed.

(** ** Totality *)

(** C9. [evaluate_application] never raises on a request that passed
    validation: the income is positive, so [calculate_dti] returns, and
    a decision follows. *)
Theorem valid_request_never_raises (application : LoanApplicationRequest.t) :
  validation_errors application = [] ->
  (exists dti,
      calculate_dti (LoanApplicationRequest.monthly_debts application)
                    (LoanApplicationRequest.monthly_income application) = Ok dti)
  /\ (exists decision, evaluate_application application = Ok decision)
  /\ (forall e, evaluate_application application <> Raise e).
Proof.
  intros Hvalid.
  valid_ratio application Hvalid Hdti.
  destruct (evaluate_application_cases application _ Hdti)
    as (decision & Heval & _).
  split; [ eexists; exact Hdti | ].
  split; [ exists decision; exact Heval | ].
  intros e He. rewrite Heval in He. discriminate He.
Qed.

Lemma valid_request_never_raises_witness :
  (exists dti, calculate_dti 1500 5000 = Ok dti)
  /\ (exists decision,
         evaluate_application
           (LoanApplicationRequest.Build "John Doe" 5000 1500 720 250000)
         = Ok decision)
  /\ (forall e,
         evaluate_application
           (LoanApplicationRequest.Build "John Doe" 5000 1500 720 250000)
         <> Raise e).
Proof.
  apply (valid_request_never_raises
           (LoanApplicationRequest.Build "John Doe" 5000 1500 720 250000)).
  vm_compute. reflexivity.
Defined.

(** ** Validation *)











(** A body with every field out of range: five errors, one per field, in
    the order of the fields. *)
Example all_fields_rejected :
  map loc (validation_errors (LoanApplicationRequest.Build "J" 0 (-1) 900 (-5)))
  = ["applicant_name"; "monthly_income"; "monthly_debts";
     "credit_score"; "loan_amount"]%string.
Proof. vm_compute. reflexivity. Qed.

(** The invalid credit score of the test suite: 422 with the one error. *)
Example simulate_invalid_data :
  post_simulate "test_api_key_12345" (Some "test_api_key_12345"%string)
    (LoanApplicationRequest.Build "Invalid User" 5000 1500 900 250000)
  = UnprocessableEntity [{| type := less_than_equal; loc := "credit_score" |}].
Proof. vm_compute. reflexivity. Qed.

Example simulate_without_api_key :
  post_simulate "test_api_key_12345" None
    (LoanApplicationRequest.Build "John Doe" 5000 1500 720 250000)
  = HTTPError 403 "API Key is missing. Please provide X-API-Key in headers.".
Proof. vm_compute. reflexivity. Qed.

(** ** The scenarios of the test suite *)

Example scenario_approved :
  evaluate_application
    (LoanApplicationRequest.Build "John Doe" 5000 1500 720 250000)
  = Ok (LoanDecisionResponse.Build "approved"
          "Applicant approved based on healthy DTI and credit score." 30 720).
Proof. vm_compute. reflexivity. Qed.

Example scenario_low_credit_score :
  evaluate_application
    (LoanApplicationRequest.Build "Jane Smith" 5000 1500 550 250000)
  = Ok (LoanDecisionResponse.Build "declined"
          "Credit score of 550 is below minimum requirement of 600." 30 550).
Proof. vm_compute. reflexivity. Qed.

Example scenario_high_dti :
  evaluate_application
    (LoanApplicationRequest.Build "Bob Johnson" 5000 2500 720 250000)
  = Ok (LoanDecisionResponse.Build "declined"
          "Debt-to-income ratio of 50.0% exceeds maximum of 45%." 50 720).
Proof. vm_compute. reflexivity. Qed.

Example scenario_zero_income :
  calculate_dti 1000 0
  = Raise (ValueError "Monthly income must be greater than zero").
Proof. vm_compute. reflexivity. Qed.

(** ** Stored applications *)

Lemma in_ids (db : table) (row : LoanApplication.t) (i : Z) :
  In row db -> LoanApplication.id row = Some i -> In i (ids db).
Proof.
  intros Hin Hid. unfold ids. apply in_flat_map.
  exists row. split; [ exact Hin | rewrite Hid; left; reflexivity ].
Qed.

Lemma not_in_use (db : table) (row : LoanApplication.t) (i : Z) :
  in_use i db = false -> In row db -> LoanApplication.id row <> Some i.
Proof.
  unfold in_use. intros Hfree Hin Hid.
  assert (Hused : existsb (Z.eqb i) (ids db) = true).
  { apply existsb_exists. exists i.
    split; [ exact (in_ids db row i Hin Hid) | apply Z.eqb_refl ]. }
  rewrite Hused in Hfree. discriminate Hfree.
Qed.




(** What the session does when it returns: the row is added at the end of
    the table under the key [next_id], a 64-bit integer that no earlier row
    has, and is otherwise unchanged. *)
Lemma session_returns (row : LoanApplication.t) (draw : Z) (db : table)
    (stored : LoanApplication.t) (db' : table) :
  session_add_commit_refresh row draw db = Ok (stored, db') ->
  db' = db ++ [stored]
  /\ int64 (next_id draw db) = true
  /\ in_use (next_id draw db) db = false
  /\ stored
     = {| LoanApplication.id := Some (next_id draw db);
          LoanApplication.applicant_name := LoanApplication.applicant_name row;
          LoanApplication.monthly_income := LoanApplication.monthly_income row;
          LoanApplication.monthly_debts := LoanApplication.monthly_debts row;
          LoanApplication.credit_score := LoanApplication.credit_score row;
          LoanApplication.loan_amount := LoanApplication.loan_amount row;
          LoanApplication.dti_ratio := LoanApplication.dti_ratio row;
          LoanApplication.decision := LoanApplication.decision row;
          LoanApplication.decision_message := LoanApplication.decision_message row;
          LoanApplication.created_at := LoanApplication.created_at row |}.
Proof.
  unfold session_add_commit_refresh.
  destruct (negb (int64 (LoanApplication.credit_score row)));
    [ intros H; discriminate H | ].
  destruct (find _ (float_columns row)) as [ [name value] | ];
    [ intros H; discriminate H | ].
  destruct (int64 (next_id draw db)) eqn:Hrange;
    [ | intros H; discriminate H ].
  destruct (in_use (next_id draw db) db) eqn:Hfree; simpl;
    intros H; inversion H; subst; auto.
Qed.




(** * Further properties *)

(** ** The API key *)

(** X1. [verify_api_key] returns only on the configured key, which it gives
    back; a missing key or any other key is refused with status 403. *)
Theorem verify_api_key_accepts_only_the_key
    (API_KEY : string) (api_key : option string) :
  (forall key, verify_api_key API_KEY api_key = Ok key
               <-> api_key = Some API_KEY /\ key = API_KEY)
  /\ (api_key <> Some API_KEY ->
      exists detail,
        verify_api_key API_KEY api_key = Raise (HTTPException 403 detail)).
Proof.
  unfold verify_api_key. split.
  - intros key. destruct api_key as [given | ].
    + destruct (String.eqb_spec given API_KEY) as [Heq | Hneq]; simpl.
      * subst given. split.
        -- intros H. inversion H. auto.
        -- intros [_ ->]. reflexivity.
      * split; [ intros H; discriminate H | ].
        intros [H _]. inversion H. contradiction.
    + split; [ intros H; discriminate H | intros [H _]; discriminate H ].
  - intros Hother. destruct api_key as [given | ].
    + destruct (String.eqb_spec given API_KEY) as [Heq | Hneq]; simpl.
      * subst given. contradiction.
      * eexists. reflexivity.
    + eexists. reflexivity.
Qed.

(** ** Validation *)

(** X2. The [field_validator] of [credit_score] never raises on a value
    that passed the [ge] and [le] constraints of the field: no validation
    error is a [value_error]. *)
Theorem credit_score_validator_never_raises
    (app : LoanApplicationRequest.t) (e : ErrorDetails) :
  In e (validation_errors app) -> type e <> value_error.
Proof.
  unfold validation_errors, check_str, check_float_gt, check_float_ge,
    check_credit_score, validate_credit_score.
  rewrite !in_app_iff.
  destruct (py_len (LoanApplicationRequest.applicant_name app) <? 2);
    [ | destruct (100 <? py_len (LoanApplicationRequest.applicant_name app)) ];
  destruct (0 <? LoanApplicationRequest.monthly_income app)%float;
  destruct (0 <=? LoanApplicationRequest.monthly_debts app)%float;
  (destruct (LoanApplicationRequest.credit_score app <? 300);
    [ | destruct (850 <? LoanApplicationRequest.credit_score app) ]);
  destruct (0 <? LoanApplicationRequest.loan_amount app)%float;
  simpl; intuition (subst; simpl; discriminate).
Qed.

Lemma credit_score_validator_never_raises_witness :
  type {| type := less_than_equal; loc := "credit_score" |} <> value_error.
Proof.
  apply (credit_score_validator_never_raises
           (LoanApplicationRequest.Build "Invalid User" 5000 1500 900 250000)).
  vm_compute. left. reflexivity.
Defined.

(** X3. The errors of a request name each field that is out of range once,
    in the order in which the fields are declared, and name nothing else. *)
Theorem errors_follow_field_order (app : LoanApplicationRequest.t) :
  map loc (validation_errors app) = filter (out_of_range app) field_names.
Proof.
  unfold validation_errors, check_str, check_float_gt, check_float_ge,
    check_credit_score, validate_credit_score, out_of_range, field_names.
  destruct (py_len (LoanApplicationRequest.applicant_name app) <? 2);
    [ | destruct (100 <? py_len (LoanApplicationRequest.applicant_name app)) ];
  destruct (0 <? LoanApplicationRequest.monthly_income app)%float;
  destruct (0 <=? LoanApplicationRequest.monthly_debts app)%float;
  (destruct (LoanApplicationRequest.credit_score app <? 300);
    [ | destruct (850 <? LoanApplicationRequest.credit_score app) ]);
  destruct (0 <? LoanApplicationRequest.loan_amount app)%float;
  reflexivity.
Qed.

(** ** The decision *)

(** X4. Whatever the request, a decision is either approved or declined,
    and it is approved exactly when the credit score is at least 600 and the
    ratio it carries is not above 45. *)
Theorem approved_exactly_when
    (application : LoanApplicationRequest.t) (decision : LoanDecisionResponse.t) :
  evaluate_application application = Ok decision ->
  (LoanDecisionResponse.decision decision = "approved"%string
   <-> 600 <= LoanApplicationRequest.credit_score application
       /\ (45 <? LoanDecisionResponse.dti_ratio decision)%float = false)
  /\ (LoanDecisionResponse.decision decision = "declined"%string
      <-> LoanApplicationRequest.credit_score application < 600
          \/ (45 <? LoanDecisionResponse.dti_ratio decision)%float = true).
Proof.
  unfold evaluate_application.
  destruct (calculate_dti _ _) as [dti | e]; simpl; [ | intros H; discriminate H ].
  destruct (Z.ltb_spec (LoanApplicationRequest.credit_score application) 600)
    as [Hlow | Hhigh];
    [ | destruct (45 <? dti)%float eqn:Hdti ];
    intros H; inversion H; subst; clear H; simpl.
  - split; split; intros H; try discriminate H; try (destruct H; lia); auto.
  - split; split; intros H; try discriminate H; auto.
    destruct H as [_ H]. rewrite Hdti in H. discriminate H.
  - split; split; intros H; try discriminate H; auto.
    destruct H as [H | H]; [ lia | rewrite Hdti in H; discriminate H ].
Qed.

Lemma approved_exactly_when_witness :
  (LoanDecisionResponse.decision
     (LoanDecisionResponse.Build "declined"
        "Debt-to-income ratio of 50.0% exceeds maximum of 45%." 50 720)
   = "approved"%string
   <-> 600 <= 720 /\ (45 <? 50)%float = false)
  /\ (LoanDecisionResponse.decision
        (LoanDecisionResponse.Build "declined"
           "Debt-to-income ratio of 50.0% exceeds maximum of 45%." 50 720)
      = "declined"%string
      <-> 720 < 600 \/ (45 <? 50)%float = true).
Proof.
  apply (approved_exactly_when
           (LoanApplicationRequest.Build "Bob Johnson" 5000 2500 720 250000)).
  vm_compute. reflexivity.
Defined.

(** X5. A better credit score never turns an approval into a decline: a
    request approved with some score is approved, with the same ratio, at
    any score that is not lower, the income and the debts being the same. *)
Theorem approval_is_monotone_in_credit_score
    (a b : LoanApplicationRequest.t) (decision : LoanDecisionResponse.t) :
  evaluate_application a = Ok decision ->
  LoanDecisionResponse.decision decision = "approved"%string ->
  LoanApplicationRequest.monthly_income b = LoanApplicationRequest.monthly_income a ->
  LoanApplicationRequest.monthly_debts b = LoanApplicationRequest.monthly_debts a ->
  LoanApplicationRequest.credit_score a <= LoanApplicationRequest.credit_score b ->
  evaluate_application b
  = Ok {| LoanDecisionResponse.decision := "approved";
          LoanDecisionResponse.message :=
            "Applicant approved based on healthy DTI and credit score.";
          LoanDecisionResponse.dti_ratio := LoanDecisionResponse.dti_ratio decision;
          LoanDecisionResponse.credit_score :=
            LoanApplicationRequest.credit_score b |}.
Proof.
  unfold evaluate_application. intros Heval Happroved Hincome Hdebts Hscore.
  rewrite Hincome, Hdebts.
  destruct (calculate_dti _ _) as [dti | e]; simpl in *; [ | discriminate Heval ].
  destruct (Z.ltb_spec (LoanApplicationRequest.credit_score a) 600)
    as [Hlow | Hhigh];
    [ | destruct (45 <? dti)%float eqn:Hdti ];
    inversion Heval; subst; clear Heval; simpl in *; try discriminate Happroved.
  assert (Hb : (LoanApplicationRequest.credit_score b <? 600) = false)
    by (apply Z.ltb_ge; lia).
  rewrite Hb. reflexivity.
Qed.

Lemma approval_is_monotone_in_credit_score_witness :
  evaluate_application
    (LoanApplicationRequest.Build "John Doe" 5000 1500 800 250000)
  = Ok (LoanDecisionResponse.Build "approved"
          "Applicant approved based on healthy DTI and credit score." 30 800).
Proof.
  apply (approval_is_monotone_in_credit_score
           (LoanApplicationRequest.Build "John Doe" 5000 1500 720 250000)
           (LoanApplicationRequest.Build "John Doe" 5000 1500 800 250000)
           (LoanDecisionResponse.Build "approved"
              "Applicant approved based on healthy DTI and credit score." 30 720)).
  - vm_compute. reflexivity.
  - reflexivity.
  - reflexivity.
  - reflexivity.
  - simpl. lia.
Defined.

(** A decision carries the ratio of the request's debts and income and the
    request's credit score, for any request. *)
Lemma evaluate_application_cases_any
    (application : LoanApplicationRequest.t) (decision : LoanDecisionResponse.t) :
  evaluate_application application = Ok decision ->
  calculate_dti (LoanApplicationRequest.monthly_debts application)
                (LoanApplicationRequest.monthly_income application)
  = Ok (LoanDecisionResponse.dti_ratio decision)
  /\ LoanDecisionResponse.credit_score decision
     = LoanApplicationRequest.credit_score application.
Proof.
  unfold evaluate_application.
  destruct (calculate_dti _ _) as [dti | e]; simpl; [ | intros H; discriminate H ].
  destruct (LoanApplicationRequest.credit_score application <? 600);
    [ | destruct (45 <? dti)%float ];
    intros H; inversion H; subst; simpl; auto.
Qed.

(** ** The table of applications *)

(** What [create_application] does when it returns: the decision is that of
    [evaluate_application], one row is added at the end of the table under
    the key [next_id], a 64-bit integer that no earlier row has, and the
    body returned repeats the key, the decision and the clock reading. *)
Lemma create_application_returns
    (application : LoanApplicationRequest.t) (utcnow : datetime) (draw : Z)
    (db : table) (response : ApplicationCreated.t) (db' : table) :
  create_application application utcnow draw db = Ok (response, db') ->
  exists decision row,
    evaluate_application application = Ok decision
    /\ db' = db ++ [row]
    /\ LoanApplication.id row = Some (next_id draw db)
    /\ int64 (next_id draw db) = true
    /\ in_use (next_id draw db) db = false
    /\ stored_request row = application
    /\ LoanApplication.dti_ratio row = LoanDecisionResponse.dti_ratio decision
    /\ LoanApplication.decision row = LoanDecisionResponse.decision decision
    /\ LoanApplication.decision_message row = LoanDecisionResponse.message decision
    /\ LoanApplication.created_at row = utcnow
    /\ response
       = {| ApplicationCreated.id := Some (next_id draw db);
            ApplicationCreated.decision := LoanDecisionResponse.decision decision;
            ApplicationCreated.message := LoanDecisionResponse.message decision;
            ApplicationCreated.dti_ratio := LoanDecisionResponse.dti_ratio decision;
            ApplicationCreated.created_at := utcnow |}.
Proof.
  unfold create_application.
  destruct (evaluate_application application) as [decision | e];
    simpl; [ | intros H; discriminate H ].
  destruct (session_add_commit_refresh _ draw db) as [ [row table'] | e ]
    eqn:Hsession; simpl; intros H; inversion H; subst; clear H.
  apply session_returns in Hsession.
  destruct Hsession as (-> & Hrange & Hfree & ->).
  exists decision. eexists.
  split; [ reflexivity | ]. split; [ reflexivity | ].
  split; [ reflexivity | ]. split; [ exact Hrange | ].
  split; [ exact Hfree | ].
  split; [ destruct application; reflexivity | ].
  repeat split.
Qed.


Lemma get_application_ok_inv (application_id : Z) (db : table)
    (row : LoanApplication.t) :
  get_application application_id db = Ok row ->
  In row db /\ LoanApplication.id row = Some application_id.
Proof.
  unfold get_application.
  destruct (negb (int64 application_id)); [ intros H; discriminate H | ].
  destruct (find _ db) as [ found | ] eqn:Hfind; intros H; inversion H; subst.
  apply find_some in Hfind. destruct Hfind as [Hin Hkey].
  destruct (LoanApplication.id row) as [ i | ]; [ | discriminate Hkey ].
  apply Z.eqb_eq in Hkey. subst i. auto.
Qed.

Lemma get_application_raise_inv (application_id : Z) (db : table) (e : exn) :
  get_application application_id db = Raise e ->
  (int64 application_id = false
   /\ e = OverflowError "Python int too large to convert to SQLite INTEGER")
  \/ (int64 application_id = true
      /\ e = HTTPException 404
               ("Application with ID " ++ str_int application_id ++ " not found")
      /\ forall row, In row db -> LoanApplication.id row <> Some application_id).
Proof.
  unfold get_application.
  destruct (int64 application_id); simpl.
  - destruct (find _ db) as [ found | ] eqn:Hfind; intros H; inversion H; subst.
    right. split; [ reflexivity | ]. split; [ reflexivity | ].
    intros row Hin Hid.
    pose proof (find_none _ _ Hfind row Hin) as Hkey. simpl in Hkey.
    rewrite Hid, Z.eqb_refl in Hkey. discriminate Hkey.
  - intros H. inversion H. left. auto.
Qed.

(** X6. [get_application] answers with a row of the table that has the key
    asked for. It raises [OverflowError] exactly when the key is beyond 64
    bits, and the 404 naming the key exactly when the key is a 64-bit
    integer that no row has. *)
Theorem get_application_finds_by_key (application_id : Z) (db : table) :
  (forall row, get_application application_id db = Ok row ->
               In row db /\ LoanApplication.id row = Some application_id)
  /\ (forall e, get_application application_id db = Raise e <->
        (int64 application_id = false
         /\ e = OverflowError "Python int too large to convert to SQLite INTEGER")
        \/ (int64 application_id = true
            /\ e = HTTPException 404
                     ("Application with ID " ++ str_int application_id
                      ++ " not found")
            /\ forall row, In row db ->
                           LoanApplication.id row <> Some application_id)).
Proof.
  split; [ intros row; apply get_application_ok_inv | ].
  intros e. split; [ apply get_application_raise_inv | ].
  intros [ [Hrange ->] | (Hrange & -> & Hnone) ].
  - unfold get_application. rewrite Hrange. reflexivity.
  - destruct (get_application application_id db) as [ found | e ] eqn:Hget.
    + apply get_application_ok_inv in Hget. destruct Hget as [Hin Hid].
      exfalso. exact (Hnone found Hin Hid).
    + apply get_application_raise_inv in Hget.
      destruct Hget as [ [Hout _] | (_ & -> & _) ]; [ congruence | reflexivity ].
Qed.

Example get_application_beyond_64_bits :
  get_application (2 ^ 63) []
  = Raise (OverflowError "Python int too large to convert to SQLite INTEGER").
Proof. vm_compute. reflexivity. Qed.

Example get_nonexistent_application :
  get_application 99999 []
  = Raise (HTTPException 404 "Application with ID 99999 not found").
Proof. vm_compute. reflexivity. Qed.

Lemma same_key_same_row (db : table) (r1 r2 : LoanApplication.t) :
  NoDup (map LoanApplication.id db) ->
  In r1 db -> In r2 db ->
  LoanApplication.id r1 = LoanApplication.id r2 -> r1 = r2.
Proof.
  induction db as [ | r db IH ]; simpl; intros Hnodup H1 H2 Hid; [ contradiction | ].
  inversion Hnodup as [ | x l Hnotin Hrest ]; subst.
  destruct H1 as [H1 | H1], H2 as [H2 | H2].
  - congruence.
  - subst r1. exfalso. apply Hnotin. rewrite Hid. apply in_map. exact H2.
  - subst r2. exfalso. apply Hnotin. rewrite <- Hid. apply in_map. exact H1.
  - apply IH; assumption.
Qed.

(** X7. In a table where no two rows share a key, every row is read back
    by its own key. *)
Theorem get_application_returns_the_row
    (db : table) (row : LoanApplication.t) (application_id : Z) :
  table_ok db -> In row db ->
  LoanApplication.id row = Some application_id ->
  get_application application_id db = Ok row.
Proof.
  intros [Hnodup Hkeys] Hin Hid.
  destruct (get_application application_id db) as [ found | e ] eqn:Hget.
  - apply get_application_ok_inv in Hget. destruct Hget as [Hfound Hkey].
    f_equal. apply (same_key_same_row db); try assumption. congruence.
  - exfalso. apply get_application_raise_inv in Hget.
    destruct Hget as [ [Hout _] | (_ & _ & Hnone) ].
    + destruct (proj1 (Forall_forall _ _) Hkeys row Hin) as (i & Hi & Hrange).
      congruence.
    + exact (Hnone row Hin Hid).
Qed.

(** Two rows under the keys 1 and 2: the second is read back by 2. *)
Lemma get_application_returns_the_row_witness :
  get_application 2
    [LoanApplication.Build (Some 1) "Test User" 6000 2000 700 300000 0
       "approved" "" 0;
     LoanApplication.Build (Some 2) "Jane Smith" 5000 1500 550 250000 30
       "declined" "" 0]
  = Ok (LoanApplication.Build (Some 2) "Jane Smith" 5000 1500 550 250000 30
          "declined" "" 0).
Proof.
  apply get_application_returns_the_row.
  - split.
    + repeat constructor; simpl; intuition discriminate.
    + repeat constructor; eexists; split; reflexivity.
  - simpl. auto.
  - reflexivity.
Defined.

Lemma in_ids_inv (db : table) (i : Z) :
  In i (ids db) ->
  exists row, In row db /\ LoanApplication.id row = Some i.
Proof.
  unfold ids. intros Hin. apply in_flat_map in Hin.
  destruct Hin as (row & Hrow & Hi). exists row. split; [ exact Hrow | ].
  destruct (LoanApplication.id row) as [ j | ]; [ | contradiction ].
  destruct Hi as [ -> | [] ]. reflexivity.
Qed.

Lemma in_use_false (i : Z) (db : table) :
  in_use i db = false -> ~ In i (ids db).
Proof.
  intros Hfree Hin. destruct (in_ids_inv db i Hin) as (row & Hrow & Hid).
  exact (not_in_use db row i Hfree Hrow Hid).
Qed.

Lemma in_use_true (i : Z) (db : table) :
  in_use i db = true -> In i (ids db).
Proof.
  unfold in_use. intros Hused. apply existsb_exists in Hused.
  destruct Hused as (j & Hin & Heq). apply Z.eqb_eq in Heq. subst j. exact Hin.
Qed.

Lemma fold_max_largest (i : Z) (rest : list Z) :
  In (fold_right Z.max i rest) (i :: rest)
  /\ forall j, In j (i :: rest) -> j <= fold_right Z.max i rest.
Proof.
  induction rest as [ | k rest IH ]; simpl.
  - split; [ auto | intros j [ -> | [] ]; lia ].
  - destruct IH as [Hin Hle]. split.
    + destruct (Z.max_spec k (fold_right Z.max i rest)) as [ [_ ->] | [_ ->] ];
        [ destruct Hin; auto | auto ].
    + intros j [ -> | [ -> | Hj ] ].
      * pose proof (Hle j (or_introl eq_refl)). lia.
      * lia.
      * pose proof (Hle j (or_intror Hj)). lia.
Qed.

(** The key of a new row when the largest key in use is below the largest
    integer. *)
Lemma next_id_after_largest (draw : Z) (db : table) (largest : Z) :
  In largest (ids db) -> (forall i, In i (ids db) -> i <= largest) ->
  largest < 2 ^ 63 - 1 ->
  next_id draw db = largest + 1.
Proof.
  intros Hin Hle Hroom. unfold next_id.
  destruct (ids db) as [ | i rest ]; [ contradiction | ].
  destruct (fold_max_largest i rest) as [Hmax Hbound].
  assert (Heq : fold_right Z.max i rest = largest).
  { pose proof (Hle _ Hmax). pose proof (Hbound _ Hin). lia. }
  cbv zeta. rewrite Heq.
  replace (largest <? 2 ^ 63 - 1) with true
    by (symmetry; apply Z.ltb_lt; exact Hroom).
  reflexivity.
Qed.

Lemma ids_app_last (db : table) (row : LoanApplication.t) (i : Z) :
  LoanApplication.id row = Some i -> ids (db ++ [row]) = ids db ++ [i].
Proof.
  intros Hid. unfold ids. rewrite flat_map_app. simpl. rewrite Hid. reflexivity.
Qed.

(** X8. [create_application] keeps the keys of a table present, within 64
    bits and distinct. The key of the new row, which it returns, is one no
    row has: 1 in a table without keys, and one more than the largest key
    when that is below the largest integer. *)
Theorem create_application_keeps_keys_distinct
    (application : LoanApplicationRequest.t) (utcnow : datetime) (draw : Z)
    (db : table) (response : ApplicationCreated.t) (db' : table) :
  table_ok db ->
  create_application application utcnow draw db = Ok (response, db') ->
  table_ok db'
  /\ ApplicationCreated.id response = Some (next_id draw db)
  /\ ~ In (next_id draw db) (ids db)
  /\ (ids db = [] -> next_id draw db = 1)
  /\ (forall largest,
         In largest (ids db) -> (forall i, In i (ids db) -> i <= largest) ->
         largest < 2 ^ 63 - 1 -> next_id draw db = largest + 1).
Proof.
  intros [Hnodup Hkeys] Hcreate.
  apply create_application_returns in Hcreate.
  destruct Hcreate
    as (decision & row & _ & -> & Hid & Hrange & Hfree & _ & _ & _ & _ & _ & ->).
  split; [ | split; [ reflexivity | split; [ exact (in_use_false _ _ Hfree) | ] ] ].
  - split.
    + rewrite map_app. apply NoDup_app; [ exact Hnodup | | ].
      * simpl. constructor; [ intros [] | constructor ].
      * intros key Hin [Hlast | []]. subst key.
        apply in_map_iff in Hin. destruct Hin as (other & Hother & Hin).
        rewrite Hid in Hother.
        exact (not_in_use db other _ Hfree Hin Hother).
    + apply Forall_app. split; [ exact Hkeys | ].
      constructor; [ | constructor ].
      exists (next_id draw db). auto.
  - split.
    + intros Hempty. unfold next_id. rewrite Hempty. reflexivity.
    + intros largest. apply next_id_after_largest.
Qed.

(** A table whose only key is -5: the new row gets the key -4. *)
Lemma create_application_keeps_keys_distinct_witness :
  table_ok
    [LoanApplication.Build (Some (-5)) "Jane Smith" 5000 1500 550 250000 30
       "declined" "" 0;
     LoanApplication.Build (Some (-4)) "Test User" 6000 2000 700 300000
       (strtod false 3333 (-2)) "approved"
       "Applicant approved based on healthy DTI and credit score." 1700000000]
  /\ Some (-4)
     = Some (next_id 0
               [LoanApplication.Build (Some (-5)) "Jane Smith" 5000 1500 550
                  250000 30 "declined" "" 0]).
Proof.
  pose proof (create_application_keeps_keys_distinct
                (LoanApplicationRequest.Build "Test User" 6000 2000 700 300000)
                1700000000 0
                [LoanApplication.Build (Some (-5)) "Jane Smith" 5000 1500 550
                   250000 30 "declined" "" 0]
                (ApplicationCreated.Build (Some (-4)) "approved"
                   "Applicant approved based on healthy DTI and credit score."
                   (strtod false 3333 (-2)) 1700000000)
                [LoanApplication.Build (Some (-5)) "Jane Smith" 5000 1500 550
                   250000 30 "declined" "" 0;
                 LoanApplication.Build (Some (-4)) "Test User" 6000 2000 700
                   300000 (strtod false 3333 (-2)) "approved"
                   "Applicant approved based on healthy DTI and credit score."
                   1700000000]) as H.
  destruct H as (Hok & Hid & _).
  - split.
    + repeat constructor; simpl; intuition discriminate.
    + repeat constructor. exists (-5). split; reflexivity.
  - vm_compute. reflexivity.
  - split; [ exact Hok | exact Hid ].
Defined.

(** When the largest integer is in use, the key is the one drawn. *)
Example key_drawn_when_largest_in_use :
  next_id 42
    [LoanApplication.Build (Some (2 ^ 63 - 1)) "Jane Smith" 5000 1500 550
       250000 30 "declined" "" 0] = 42.
Proof. vm_compute. reflexivity. Qed.





(** X11. If every row of the table is consistent with the decision rules,
    so is every row after a creation, and so is any row that
    [get_application] then returns. *)
Theorem create_application_keeps_rows_consistent
    (application : LoanApplicationRequest.t) (utcnow : datetime) (draw : Z)
    (db : table) (response : ApplicationCreated.t) (db' : table) :
  Forall row_consistent db ->
  create_application application utcnow draw db = Ok (response, db') ->
  Forall row_consistent db'
  /\ forall application_id row,
       get_application application_id db' = Ok row -> row_consistent row.
Proof.
  intros Hall Hcreate.
  apply create_application_returns in Hcreate.
  destruct Hcreate
    as (decision & row & Heval & -> & _ & _ & _ & Hfields & Hratio & Hdecision
        & Hmessage & _ & _).
  assert (Hall' : Forall row_consistent (db ++ [row])).
  { apply Forall_app. split; [ exact Hall | ].
    constructor; [ | constructor ].
    exists decision. rewrite Hfields. auto. }
  split; [ exact Hall' | ].
  intros application_id found Hget.
  apply get_application_ok_inv in Hget. destruct Hget as [Hin _].
  exact (proj1 (Forall_forall _ _) Hall' found Hin).
Qed.

Lemma create_application_keeps_rows_consistent_witness :
  Forall row_consistent
    [LoanApplication.Build (Some 1) "Test User" 6000 2000 700 300000
       (strtod false 3333 (-2)) "approved"
       "Applicant approved based on healthy DTI and credit score." 1700000000]
  /\ forall application_id row,
       get_application application_id
         [LoanApplication.Build (Some 1) "Test User" 6000 2000 700 300000
            (strtod false 3333 (-2)) "approved"
            "Applicant approved based on healthy DTI and credit score." 1700000000]
       = Ok row -> row_consistent row.
Proof.
  apply (create_application_keeps_rows_consistent
           (LoanApplicationRequest.Build "Test User" 6000 2000 700 300000)
           1700000000 0 []
           (ApplicationCreated.Build (Some 1) "approved"
              "Applicant approved based on healthy DTI and credit score."
              (strtod false 3333 (-2)) 1700000000)).
  - constructor.
  - vm_compute. reflexivity.
Defined.

Lemma session_raises (row : LoanApplication.t) (draw : Z) (db : table) (e : exn) :
  session_add_commit_refresh row draw db = Raise e ->
  (exists msg, e = OverflowError msg) \/ (exists msg, e = IntegrityError msg)
  \/ (exists msg, e = OperationalError msg).
Proof.
  unfold session_add_commit_refresh.
  destruct (negb (int64 (LoanApplication.credit_score row)));
    [ intros H; inversion H; eauto | ].
  destruct (find _ (float_columns row)) as [ [name value] | ];
    [ intros H; inversion H; eauto | ].
  destruct (int64 (next_id draw db) && negb (in_use (next_id draw db) db));
    intros H; inversion H; eauto.
Qed.

(** X12. Submitting an application decides it as simulating it does.
    Whatever [simulate_approval] raises, [create_application] raises too;
    when [create_application] returns, its decision, message and ratio are
    those that [simulate_approval] returns; and when [simulate_approval]
    returns, [create_application] can only fail in storing the row: on an
    integer beyond 64 bits, on a nan that a column refuses, or for want of
    an unused key. *)
Theorem create_application_decides_as_simulate_approval
    (application : LoanApplicationRequest.t) (utcnow : datetime) (draw : Z)
    (db : table) :
  (forall e, simulate_approval application = Raise e ->
             create_application application utcnow draw db = Raise e)
  /\ (forall response db',
        create_application application utcnow draw db = Ok (response, db') ->
        simulate_approval application
        = Ok {| LoanDecisionResponse.decision :=
                  ApplicationCreated.decision response;
                LoanDecisionResponse.message :=
                  ApplicationCreated.message response;
                LoanDecisionResponse.dti_ratio :=
                  ApplicationCreated.dti_ratio response;
                LoanDecisionResponse.credit_score :=
                  LoanApplicationRequest.credit_score application |})
  /\ (forall decision e,
        simulate_approval application = Ok decision ->
        create_application application utcnow draw db = Raise e ->
        (exists msg, e = OverflowError msg) \/ (exists msg, e = IntegrityError msg)
        \/ (exists msg, e = OperationalError msg)).
Proof.
  unfold create_application, simulate_approval.
  destruct (evaluate_application application) as [decision | e] eqn:Heval; simpl.
  - split; [ | split ].
    + intros e H. discriminate H.
    + intros response db'.
      destruct (session_add_commit_refresh _ draw db) as [ [row table'] | e ];
        simpl; intros H; inversion H; subst; clear H. simpl.
      destruct (evaluate_application_cases_any application decision Heval)
        as [_ Hscore].
      rewrite <- Hscore. destruct decision; reflexivity.
    + intros decision' e _.
      destruct (session_add_commit_refresh _ draw db) as [ [row table'] | e' ]
        eqn:Hsession; simpl; intros H; inversion H; subst.
      exact (session_raises _ _ _ _ Hsession).
  - split; [ | split ].
    + intros e' H. inversion H. reflexivity.
    + intros response db' H. discriminate H.
    + intros decision e' H. discriminate H.
Qed.
(** ** The routes *)

Lemma verify_api_key_ok_inv (API_KEY : string) (api_key : option string)
    (key : string) :
  verify_api_key API_KEY api_key = Ok key -> api_key = Some API_KEY.
Proof.
  unfold verify_api_key. destruct api_key as [given | ]; [ | intros H; discriminate H ].
  destruct (String.eqb_spec given API_KEY) as [-> | Hneq]; simpl; intros H;
    [ reflexivity | discriminate H ].
Qed.

Lemma post_route_success {A : Type} (status_code : Z) (API_KEY : string)
    (x_api_key : option string) (body : LoanApplicationRequest.t)
    (handler : LoanApplicationRequest.t -> result A) (status : Z) (response : A) :
  post_route API_KEY status_code x_api_key body handler = Success status response ->
  x_api_key = Some API_KEY /\ validation_errors body = []
  /\ status = status_code /\ handler body = Ok response.
Proof.
  unfold post_route, model_validate.
  destruct (verify_api_key API_KEY x_api_key) as [key | e] eqn:Hkey;
    [ | destruct e; intros H; discriminate H ].
  apply verify_api_key_ok_inv in Hkey.
  destruct (validation_errors body) as [ | err errs ]; [ | intros H; discriminate H ].
  destruct (handler body) as [ r | e ]; intros H; inversion H; subst; auto.
Qed.

(** ** The sign of the ratio *)

Lemma binary_round_aux_sign_clear (mx ex : Z) (lx : location) :
  sign_clear (binary_round_aux prec emax false mx ex lx) = true.
Proof.
  unfold binary_round_aux.
  destruct (shr_fexp prec emax mx ex lx) as [mrs' e'].
  destruct (shr_fexp prec emax _ e' loc_Exact) as [mrs'' e''].
  destruct (shr_m mrs''); [ reflexivity | | reflexivity ].
  destruct (e'' <=? emax - prec); reflexivity.
Qed.

Lemma binary_round_sign_clear (m : positive) (e : Z) :
  sign_clear (binary_round prec emax false m e) = true.
Proof.
  unfold binary_round. destruct (shl_align m e _) as [mz ez].
  apply binary_round_aux_sign_clear.
Qed.

Lemma sign_clear_not_negative (y : spec_float) :
  sign_clear y = true -> not_negative y = true.
Proof. destruct y; simpl; auto. Qed.

Lemma above_zero_not_negative (y : spec_float) :
  above_zero y = true -> not_negative y = true.
Proof. destruct y; simpl; auto; discriminate. Qed.

Lemma SFdiv_not_negative (x y : spec_float) :
  not_negative x = true -> above_zero y = true ->
  not_negative (SFdiv prec emax x y) = true.
Proof.
  destruct x as [sx | sx | | sx mx ex], y as [sy | sy | | sy my ey];
    simpl; intros Hx Hy; try discriminate Hy; try reflexivity;
    try (destruct sx; [ discriminate Hx | ]);
    try (destruct sy; [ discriminate Hy | ]); try reflexivity.
  destruct (SFdiv_core_binary prec emax (Zpos mx) ex (Zpos my) ey) as [[mz ez] lz].
  apply sign_clear_not_negative, binary_round_aux_sign_clear.
Qed.

Lemma SFmul_not_negative (x y : spec_float) :
  not_negative x = true -> above_zero y = true ->
  not_negative (SFmul prec emax x y) = true.
Proof.
  destruct x as [sx | sx | | sx mx ex], y as [sy | sy | | sy my ey];
    simpl; intros Hx Hy; try discriminate Hy; try reflexivity;
    try (destruct sx; [ discriminate Hx | ]);
    try (destruct sy; [ discriminate Hy | ]); try reflexivity.
  apply sign_clear_not_negative, binary_round_aux_sign_clear.
Qed.

Lemma Prim2SF_zero : Prim2SF 0%float = S754_zero false.
Proof. vm_compute. reflexivity. Qed.

Lemma above_zero_iff (x : float) :
  (0 <? x)%float = true <-> above_zero (Prim2SF x) = true.
Proof.
  rewrite ltb_spec, Prim2SF_zero.
  destruct (Prim2SF x) as [s | s | | s m e]; try destruct s; simpl;
    split; intros H; try discriminate H; reflexivity.
Qed.

Lemma not_negative_of_leb (x : float) :
  (0 <=? x)%float = true -> not_negative (Prim2SF x) = true.
Proof.
  rewrite leb_spec, Prim2SF_zero.
  destruct (Prim2SF x) as [s | s | | s m e]; try destruct s; simpl;
    intros H; try discriminate H; reflexivity.
Qed.

Lemma not_negative_ltb (x : float) :
  not_negative (Prim2SF x) = true -> (x <? 0)%float = false.
Proof.
  rewrite ltb_spec, Prim2SF_zero.
  destruct (Prim2SF x) as [s | s | | s m e]; try destruct s; simpl;
    intros H; try discriminate H; reflexivity.
Qed.

(** Building a double from a sign-clear specification gives a double that
    is not negative. *)
Lemma SF2Prim_not_negative (y : spec_float) :
  sign_clear y = true -> not_negative (Prim2SF (SF2Prim y)) = true.
Proof.
  destruct y as [s | s | | s m e]; intros Hs;
    try (destruct s; [ discriminate Hs | ]);
    [ vm_compute; reflexivity | vm_compute; reflexivity
    | vm_compute; reflexivity | ].
  unfold SF2Prim, Z.ldexp. rewrite ldshiftexp_spec, of_uint63_spec.
  pose proof (Uint63.to_Z_bounded (Uint63.of_Z (Zpos m))) as Hbound.
  revert Hbound.
  generalize (Uint63.to_Z (Uint63.of_Z (Zpos m))).
  generalize (Uint63.to_Z
                (Uint63.of_Z (Z.max (Z.min e (emax - emin)) (emin - emax - 1) + shift))
              - shift).
  intros k z Hz. unfold SFldexp, binary_normalize.
  destruct z as [ | p | p ]; [ reflexivity | | lia ].
  pose proof (binary_round_sign_clear p 0) as Hp.
  destruct (binary_round prec emax false p 0) as [s' | s' | | s' m' e'];
    simpl in Hp |- *; try (destruct s'; [ discriminate Hp | ]); try reflexivity.
  apply sign_clear_not_negative, binary_round_sign_clear.
Qed.

Lemma py_round_not_negative (x : float) (ndigits : Z) :
  not_negative (Prim2SF x) = true ->
  not_negative (Prim2SF (py_round x ndigits)) = true.
Proof.
  intros Hx. unfold py_round.
  destruct (Prim2SF x) as [s | s | | s m e] eqn:Hsf;
    try (rewrite Hsf; exact Hx).
  simpl in Hx. destruct s; [ discriminate Hx | ].
  unfold strtod, nearest_double.
  destruct (dtoa_fixed m e ndigits) as [ | p | p ];
    [ exact (f_equal not_negative Prim2SF_zero) |
    | exact (f_equal not_negative Prim2SF_zero) ].
  destruct (- ndigits); apply SF2Prim_not_negative; unfold SFdiv;
    match goal with
    | |- context [SFdiv_core_binary ?a ?b ?c ?d ?e ?f] =>
        destruct (SFdiv_core_binary a b c d e f) as [[mz ez] lz]
    end; apply binary_round_aux_sign_clear.
Qed.

Lemma Prim2SF_hundred : above_zero (Prim2SF 100%float) = true.
Proof. vm_compute. reflexivity. Qed.

(** X14. On an income above zero and debts that are not below zero, the
    ratio that [calculate_dti] returns is never below zero. *)
Theorem dti_is_never_negative (monthly_debts monthly_income : float) :
  (0 <? monthly_income)%float = true ->
  (0 <=? monthly_debts)%float = true ->
  exists dti,
    calculate_dti monthly_debts monthly_income = Ok dti
    /\ (dti <? 0)%float = false.
Proof.
  intros Hincome Hdebts.
  rewrite (calculate_dti_positive_income _ _ Hincome).
  eexists. split; [ reflexivity | ].
  apply not_negative_ltb, py_round_not_negative.
  rewrite mul_spec, div_spec.
  apply SFmul_not_negative; [ | exact Prim2SF_hundred ].
  apply SFdiv_not_negative.
  - apply not_negative_of_leb. exact Hdebts.
  - apply above_zero_iff. exact Hincome.
Qed.

Lemma dti_is_never_negative_witness :
  exists dti, calculate_dti 1500 5000 = Ok dti /\ (dti <? 0)%float = false.
Proof.
  apply (dti_is_never_negative 1500 5000); vm_compute; reflexivity.
Defined.

(** X15. With no debts the ratio is exactly zero, whatever the income
    above zero, so the decision rests on the credit score alone. *)
Theorem no_debts_zero_dti (monthly_income : float) :
  (0 <? monthly_income)%float = true ->
  calculate_dti 0 monthly_income = Ok 0%float.
Proof.
  intros Hincome.
  rewrite (calculate_dti_positive_income _ _ Hincome).
  assert (Hsf : Prim2SF ((0 / monthly_income) * 100)%float = S754_zero false).
  { rewrite mul_spec, div_spec, Prim2SF_zero.
    apply above_zero_iff in Hincome.
    destruct (Prim2SF monthly_income) as [s | s | | s m e];
      try discriminate Hincome; simpl in Hincome;
      (destruct s; [ discriminate Hincome | ]); vm_compute; reflexivity. }
  unfold py_round. rewrite Hsf. f_equal.
  apply Prim2SF_inj. rewrite Hsf, Prim2SF_zero. reflexivity.
Qed.

Lemma no_debts_zero_dti_witness : calculate_dti 0 5000 = Ok 0%float.
Proof.
  apply (no_debts_zero_dti 5000). vm_compute. reflexivity.
Defined.

(** ** The ratio is a number *)

Lemma shr_1_nonneg (mrs : shr_record) :
  0 <= shr_m mrs -> 0 <= shr_m (shr_1 mrs).
Proof.
  destruct mrs as [m r s]. destruct m as [ | p | p ]; try destruct p;
    simpl; lia.
Qed.

Lemma iter_shr_1_nonneg (p : positive) :
  forall mrs, 0 <= shr_m mrs -> 0 <= shr_m (iter_pos shr_1 p mrs).
Proof.
  induction p as [ p IH | p IH | ]; simpl; intros mrs Hm.
  - apply IH, IH, shr_1_nonneg, Hm.
  - apply IH, IH, Hm.
  - apply shr_1_nonneg, Hm.
Qed.

Lemma shr_fexp_nonneg (m e : Z) (l : location) :
  0 <= m -> 0 <= shr_m (fst (shr_fexp prec emax m e l)).
Proof.
  intros Hm. unfold shr_fexp, shr.
  assert (Hrec : 0 <= shr_m (shr_record_of_loc m l))
    by (destruct l as [ | [ | | ] ]; exact Hm).
  destruct (fexp prec emax (Zdigits2 m + e) - e) as [ | p | p ]; simpl;
    [ exact Hrec | apply iter_shr_1_nonneg; exact Hrec | exact Hrec ].
Qed.

Lemma round_nearest_even_nonneg (m : Z) (l : location) :
  0 <= m -> 0 <= round_nearest_even m l.
Proof.
  intros Hm. destruct l as [ | [ | | ] ]; simpl; try destruct (Z.even m); lia.
Qed.

Lemma binary_round_aux_is_number (sx : bool) (mx ex : Z) (lx : location) :
  0 <= mx -> is_number (binary_round_aux prec emax sx mx ex lx) = true.
Proof.
  intros Hm. unfold binary_round_aux.
  pose proof (shr_fexp_nonneg mx ex lx Hm) as H1.
  destruct (shr_fexp prec emax mx ex lx) as [mrs' e']. simpl in H1.
  pose proof (shr_fexp_nonneg _ e' loc_Exact
                (round_nearest_even_nonneg (shr_m mrs') (loc_of_shr_record mrs') H1))
    as H2.
  destruct (shr_fexp prec emax _ e' loc_Exact) as [mrs'' e'']. simpl in H2.
  destruct (shr_m mrs'') as [ | p | p ]; [ reflexivity | | lia ].
  destruct (e'' <=? emax - prec); reflexivity.
Qed.

Lemma binary_round_is_number (s : bool) (m : positive) (e : Z) :
  is_number (binary_round prec emax s m e) = true.
Proof.
  unfold binary_round. destruct (shl_align m e _) as [mz ez].
  apply binary_round_aux_is_number. lia.
Qed.

Lemma SFdiv_finite_is_number (sx sy : bool) (mx my : positive) (ex ey : Z) :
  is_number (SFdiv prec emax (S754_finite sx mx ex) (S754_finite sy my ey)) = true.
Proof.
  unfold SFdiv, SFdiv_core_binary.
  set (m' := match _ - _ - _ with
             | Z0 => Zpos mx
             | Zpos _ => Z.shiftl (Zpos mx) _
             | Zneg _ => 0
             end).
  assert (Hm' : 0 <= m').
  { unfold m'. destruct (_ - _ - _); [ lia | | lia ].
    apply Z.shiftl_nonneg. lia. }
  pose proof (Z_div_mod m' (Zpos my) ltac:(lia)) as Hdiv.
  destruct (Z.div_eucl m' (Zpos my)) as [q r].
  apply binary_round_aux_is_number. nia.
Qed.

(** The quotient of a double that is not below zero by one above zero is a
    number, unless both are infinite. *)
Lemma SFdiv_is_number (x y : spec_float) :
  is_number x = true -> not_negative x = true -> above_zero y = true ->
  SFltb x (S754_infinity false) = true \/ SFltb y (S754_infinity false) = true ->
  is_number (SFdiv prec emax x y) = true.
Proof.
  intros Hx Hsign Hy Hfinite.
  destruct x as [sx | sx | | sx mx ex], y as [sy | sy | | sy my ey];
    try discriminate Hx; try discriminate Hy; try reflexivity.
  - destruct sx; [ discriminate Hsign | ].
    destruct sy; [ discriminate Hy | ].
    destruct Hfinite as [H | H]; discriminate H.
  - apply SFdiv_finite_is_number.
Qed.

Lemma SFmul_is_number (x y : spec_float) :
  is_number x = true -> above_zero y = true ->
  SFltb y (S754_infinity false) = true ->
  is_number (SFmul prec emax x y) = true.
Proof.
  intros Hx Hy Hfinite.
  destruct x as [sx | sx | | sx mx ex], y as [sy | sy | | sy my ey];
    try discriminate Hx; try discriminate Hy; try reflexivity.
  - destruct sx, sy; simpl in Hy; discriminate.
  - simpl. apply binary_round_aux_is_number. lia.
Qed.

Lemma SF2Prim_is_number (y : spec_float) :
  is_number y = true -> is_number (Prim2SF (SF2Prim y)) = true.
Proof.
  destruct y as [s | s | | s m e]; intros Hy;
    [ destruct s; vm_compute; reflexivity
    | destruct s; vm_compute; reflexivity
    | discriminate Hy | ].
  assert (Hldexp : forall f k, is_number (Prim2SF f) = true ->
                               is_number (Prim2SF (Z.ldexp f k)) = true).
  { intros f k Hf. unfold Z.ldexp. rewrite ldshiftexp_spec. unfold SFldexp.
    destruct (Prim2SF f) as [s' | s' | | s' m' e']; try exact Hf.
    apply binary_round_is_number. }
  assert (Hmant : is_number (Prim2SF (of_uint63 (Uint63.of_Z (Zpos m)))) = true).
  { rewrite of_uint63_spec. unfold binary_normalize.
    destruct (Uint63.to_Z (Uint63.of_Z (Zpos m)));
      [ reflexivity | apply binary_round_is_number | apply binary_round_is_number ]. }
  unfold SF2Prim. destruct s.
  - rewrite opp_spec.
    specialize (Hldexp _ e Hmant).
    destruct (Prim2SF (Z.ldexp (of_uint63 (Uint63.of_Z (Zpos m))) e));
      try discriminate Hldexp; reflexivity.
  - apply Hldexp, Hmant.
Qed.

Lemma py_round_is_number (x : float) (ndigits : Z) :
  is_number (Prim2SF x) = true ->
  is_number (Prim2SF (py_round x ndigits)) = true.
Proof.
  intros Hx. unfold py_round.
  destruct (Prim2SF x) as [s | s | | s m e] eqn:Hsf;
    try (rewrite Hsf; exact Hx).
  unfold strtod, nearest_double.
  destruct (dtoa_fixed m e ndigits) as [ | p | p ];
    [ destruct s; vm_compute; reflexivity |
    | destruct s; vm_compute; reflexivity ].
  destruct (- ndigits); apply SF2Prim_is_number, SFdiv_finite_is_number.
Qed.

Lemma Prim2SF_infinity : Prim2SF infinity = S754_infinity false.
Proof. vm_compute. reflexivity. Qed.

Lemma hundred_is_finite :
  SFltb (Prim2SF 100%float) (S754_infinity false) = true.
Proof. vm_compute. reflexivity. Qed.

Lemma numbers_compare (x y : spec_float) :
  is_number x = true -> is_number y = true ->
  SFleb x y = true \/ SFltb y x = true.
Proof.
  intros Hx Hy. unfold SFleb, SFltb. rewrite (SFcompare_antisym x y).
  destruct (SFcompare x y) as [ [ | | ] | ] eqn:Hcmp; simpl; auto.
  destruct x, y; try discriminate Hx; try discriminate Hy; discriminate Hcmp.
Qed.

Lemma number_compares_with_45 (x : float) :
  is_number (Prim2SF x) = true ->
  (x <=? 45)%float = true \/ (45 <? x)%float = true.
Proof.
  intros Hx. rewrite leb_spec, ltb_spec.
  apply numbers_compare; [ exact Hx | vm_compute; reflexivity ].
Qed.

Lemma rounded_ratio_is_number (monthly_debts monthly_income : float) :
  (0 <? monthly_income)%float = true ->
  (0 <=? monthly_debts)%float = true ->
  (monthly_debts <? infinity)%float = true
  \/ (monthly_income <? infinity)%float = true ->
  is_number
    (Prim2SF (py_round ((monthly_debts / monthly_income) * 100)%float 2)) = true.
Proof.
  intros Hincome Hdebts Hfinite.
  apply py_round_is_number.
  rewrite mul_spec, div_spec.
  apply SFmul_is_number;
    [ | exact Prim2SF_hundred | exact hundred_is_finite ].
  apply SFdiv_is_number.
  - rewrite leb_spec, Prim2SF_zero in Hdebts.
    destruct (Prim2SF monthly_debts); try reflexivity. discriminate Hdebts.
  - apply not_negative_of_leb. exact Hdebts.
  - apply above_zero_iff. exact Hincome.
  - rewrite !ltb_spec, Prim2SF_infinity in Hfinite. exact Hfinite.
Qed.

(** X16. On an income above zero and debts that are not below zero, the
    ratio is a number, at most 45 or above 45, unless the debts and the
    income are both infinite. *)
Theorem dti_is_a_number (monthly_debts monthly_income : float) :
  (0 <? monthly_income)%float = true ->
  (0 <=? monthly_debts)%float = true ->
  (monthly_debts <? infinity)%float = true
  \/ (monthly_income <? infinity)%float = true ->
  exists dti,
    calculate_dti monthly_debts monthly_income = Ok dti
    /\ ((dti <=? 45)%float = true \/ (45 <? dti)%float = true).
Proof.
  intros Hincome Hdebts Hfinite.
  rewrite (calculate_dti_positive_income _ _ Hincome).
  eexists. split; [ reflexivity | ].
  apply number_compares_with_45, rounded_ratio_is_number; assumption.
Qed.

Lemma dti_is_a_number_witness :
  exists dti,
    calculate_dti 2500 5000 = Ok dti
    /\ ((dti <=? 45)%float = true \/ (45 <? dti)%float = true).
Proof.
  apply (dti_is_a_number 2500 5000).
  - vm_compute. reflexivity.
  - vm_compute. reflexivity.
  - left. vm_compute. reflexivity.
Defined.

(** X18. The two business rules. A valid request whose debts and income are
    not both infinite is approved exactly when its credit score is 600 or
    higher and its ratio is 45 or lower. *)
Theorem approved_by_the_business_rules
    (application : LoanApplicationRequest.t) (decision : LoanDecisionResponse.t) :
  validation_errors application = [] ->
  (LoanApplicationRequest.monthly_debts application <? infinity)%float = true
  \/ (LoanApplicationRequest.monthly_income application <? infinity)%float = true ->
  evaluate_application application = Ok decision ->
  (LoanDecisionResponse.decision decision = "approved"%string
   <-> 600 <= LoanApplicationRequest.credit_score application
       /\ (LoanDecisionResponse.dti_ratio decision <=? 45)%float = true).
Proof.
  intros Hvalid Hfinite.
  pose proof (proj1 (valid_fields application) Hvalid)
    as (_ & Hincome & Hdebts & _ & _).
  pose proof (rounded_ratio_is_number _ _ Hincome Hdebts Hfinite) as Hnumber.
  unfold evaluate_application.
  rewrite (calculate_dti_positive_income _ _ Hincome). simpl.
  set (dti := py_round _ 2) in *.
  destruct (Z.ltb_spec (LoanApplicationRequest.credit_score application) 600)
    as [Hlow | Hhigh];
    [ | destruct (45 <? dti)%float eqn:Hdti ];
    intros H; inversion H; subst; clear H; simpl.
  - split; [ intros H; discriminate H | intros [H _]; lia ].
  - split; [ intros H; discriminate H | ].
    intros [_ H]. rewrite (leb_ltb_false _ _ H) in Hdti. discriminate Hdti.
  - split; [ intros _ | reflexivity ].
    split; [ exact Hhigh | ].
    destruct (number_compares_with_45 dti Hnumber) as [H | H];
      [ exact H | rewrite H in Hdti; discriminate Hdti ].
Qed.

Lemma approved_by_the_business_rules_witness :
  LoanDecisionResponse.decision
    (LoanDecisionResponse.Build "approved"
       "Applicant approved based on healthy DTI and credit score." 45 600)
  = "approved"%string
  <-> 600 <= 600 /\ (45 <=? 45)%float = true.
Proof.
  apply (approved_by_the_business_rules
           (LoanApplicationRequest.Build "John Doe" 5000 2250 600 250000)).
  - vm_compute. reflexivity.
  - left. vm_compute. reflexivity.
  - vm_compute. reflexivity.
Defined.

(** ** What the route stores *)

Lemma decision_is_short
    (application : LoanApplicationRequest.t) (decision : LoanDecisionResponse.t) :
  evaluate_application application = Ok decision ->
  py_len (LoanDecisionResponse.decision decision) <= 20.
Proof.
  unfold evaluate_application.
  destruct (calculate_dti _ _) as [dti | e]; simpl; [ | intros H; discriminate H ].
  destruct (LoanApplicationRequest.credit_score application <? 600);
    [ | destruct (45 <? dti)%float ];
    intros H; inversion H; subst; simpl; lia.
Qed.

(** X17. The route that stores applications keeps the table valid: if the
    input fields of every row pass the validation of a request and every
    name and decision fits the length declared for its column (100 and 20),
    the same holds after [post_applications] has answered with success. *)
Theorem post_applications_keeps_rows_valid
    (API_KEY : string) (x_api_key : option string)
    (body : LoanApplicationRequest.t) (utcnow : datetime) (draw : Z)
    (db : table) (status : Z) (response : ApplicationCreated.t) (db' : table) :
  Forall row_valid db ->
  post_applications API_KEY x_api_key body utcnow draw db
  = Success status (response, db') ->
  Forall row_valid db'.
Proof.
  intros Hall Hpost. unfold post_applications in Hpost.
  apply post_route_success in Hpost.
  destruct Hpost as (_ & Hvalid & _ & Hcreate).
  apply create_application_returns in Hcreate.
  destruct Hcreate
    as (decision & row & Heval & -> & _ & _ & _ & Hfields & _ & Hdecision & _).
  apply Forall_app. split; [ exact Hall | ].
  constructor; [ | constructor ].
  unfold row_valid. rewrite Hfields, Hdecision.
  split; [ exact Hvalid | ]. split.
  - apply valid_fields in Hvalid. destruct Hvalid as [Hname _].
    replace (LoanApplication.applicant_name row)
      with (LoanApplicationRequest.applicant_name body)
      by (rewrite <- Hfields; reflexivity).
    lia.
  - exact (decision_is_short body decision Heval).
Qed.

Lemma post_applications_keeps_rows_valid_witness :
  Forall row_valid
    [LoanApplication.Build (Some 1) "Test User" 6000 2000 700 300000
       (strtod false 3333 (-2)) "approved"
       "Applicant approved based on healthy DTI and credit score." 1700000000].
Proof.
  apply (post_applications_keeps_rows_valid
           "test_api_key_12345" (Some "test_api_key_12345"%string)
           (LoanApplicationRequest.Build "Test User" 6000 2000 700 300000)
           1700000000 0 [] 201
           (ApplicationCreated.Build (Some 1) "approved"
              "Applicant approved based on healthy DTI and credit score."
              (strtod false 3333 (-2)) 1700000000)).
  - constructor.
  - vm_compute. reflexivity.
Defined.

(** ** When an application is stored *)

Lemma SFcompare_refl (y : spec_float) :
  is_number y = true -> SFcompare y y = Some Eq.
Proof.
  destruct y as [s | s | | s m e]; intros Hy; try discriminate Hy;
    try (destruct s; reflexivity).
  simpl. rewrite Z.compare_refl.
  change (Pos.compare_cont Eq m m) with (Pos.compare m m).
  rewrite Pos.compare_refl. destruct s; reflexivity.
Qed.

Lemma number_is_not_nan (x : float) :
  is_number (Prim2SF x) = true -> is_nan x = false.
Proof.
  intros Hx. unfold is_nan. rewrite eqb_spec. unfold SFeqb.
  rewrite (SFcompare_refl _ Hx). reflexivity.
Qed.

Lemma nan_is_not_number (x : float) :
  is_number (Prim2SF x) = false -> is_nan x = true.
Proof.
  intros Hx. unfold is_nan. rewrite eqb_spec.
  destruct (Prim2SF x); try discriminate Hx. reflexivity.
Qed.

Lemma above_zero_is_number (x : float) :
  (0 <? x)%float = true -> is_number (Prim2SF x) = true.
Proof.
  intros H. apply above_zero_iff in H.
  destruct (Prim2SF x); try discriminate H; reflexivity.
Qed.

Lemma not_below_zero_is_number (x : float) :
  (0 <=? x)%float = true -> is_number (Prim2SF x) = true.
Proof.
  rewrite leb_spec, Prim2SF_zero.
  destruct (Prim2SF x); intros H; try discriminate H; reflexivity.
Qed.

(** In a table with distinct 64-bit keys, all below the largest integer,
    the key of a new row is a 64-bit integer that no row has. *)
Lemma next_id_is_free (draw : Z) (db : table) :
  table_ok db -> (forall i, In i (ids db) -> i < 2 ^ 63 - 1) ->
  int64 (next_id draw db) = true /\ in_use (next_id draw db) db = false.
Proof.
  intros [_ Hkeys] Hroom.
  assert (Hrange : forall i, In i (ids db) -> - 2 ^ 63 <= i).
  { intros i Hin. destruct (in_ids_inv db i Hin) as (row & Hrow & Hid).
    destruct (proj1 (Forall_forall _ _) Hkeys row Hrow) as (j & Hj & Hint).
    rewrite Hid in Hj. inversion Hj; subst j.
    unfold int64 in Hint. apply andb_prop in Hint.
    destruct Hint as [Hlo _]. apply Z.leb_le in Hlo. exact Hlo. }
  assert (Hnext : - 2 ^ 63 <= next_id draw db < 2 ^ 63
                  /\ forall i, In i (ids db) -> i < next_id draw db).
  { unfold next_id in *. destruct (ids db) as [ | i rest ].
    - split; [ vm_compute; split; [ discriminate | reflexivity ] | intros i [] ].
    - destruct (fold_max_largest i rest) as [Hmax Hbound]. cbv zeta.
      pose proof (Hroom _ Hmax) as Hlt. pose proof (Hrange _ Hmax) as Hge.
      replace (fold_right Z.max i rest <? 2 ^ 63 - 1) with true
        by (symmetry; apply Z.ltb_lt; exact Hlt).
      split; [ lia | ].
      intros j Hj. pose proof (Hbound j Hj). lia. }
  destruct Hnext as [Hint Habove]. split.
  - unfold int64. apply andb_true_intro.
    split; [ apply Z.leb_le | apply Z.ltb_lt ]; lia.
  - destruct (in_use (next_id draw db) db) eqn:Hused; [ | reflexivity ].
    apply in_use_true in Hused. pose proof (Habove _ Hused). lia.
Qed.

(** X19. A valid request is stored unless its ratio is nan. In a table with
    distinct 64-bit keys, all below the largest integer,
    [create_application] returns on every valid request whose debts and
    income are not both infinite; when both are infinite the request is
    still decided by [simulate_approval], but its nan ratio is refused by
    the [dti_ratio] column and [create_application] raises
    [IntegrityError]. *)
Theorem create_application_stores_unless_nan
    (application : LoanApplicationRequest.t) (utcnow : datetime) (draw : Z)
    (db : table) :
  validation_errors application = [] ->
  table_ok db ->
  (forall i, In i (ids db) -> i < 2 ^ 63 - 1) ->
  ((LoanApplicationRequest.monthly_debts application <? infinity)%float = true
   \/ (LoanApplicationRequest.monthly_income application <? infinity)%float = true ->
   exists response db',
     create_application application utcnow draw db = Ok (response, db'))
  /\ ((LoanApplicationRequest.monthly_debts application <? infinity)%float = false ->
      (LoanApplicationRequest.monthly_income application <? infinity)%float = false ->
      (exists decision, simulate_approval application = Ok decision)
      /\ create_application application utcnow draw db
         = Raise (IntegrityError
                    "NOT NULL constraint failed: loanapplication.dti_ratio")).
Proof.
  intros Hvalid Htable Hroom.
  pose proof (proj1 (valid_fields application) Hvalid)
    as (_ & Hincome & Hdebts & Hscore & Hloan).
  destruct (next_id_is_free draw db Htable Hroom) as [Hint Hfree].
  assert (Hscore64 : int64 (LoanApplicationRequest.credit_score application) = true).
  { unfold int64. apply andb_true_intro.
    split; [ apply Z.leb_le | apply Z.ltb_lt ];
      [ transitivity 0; [ vm_compute; discriminate | lia ]
      | apply Z.le_lt_trans with 850; [ lia | vm_compute; reflexivity ] ]. }
  pose proof (number_is_not_nan _ (above_zero_is_number _ Hincome)) as Hn1.
  pose proof (number_is_not_nan _ (not_below_zero_is_number _ Hdebts)) as Hn2.
  pose proof (number_is_not_nan _ (above_zero_is_number _ Hloan)) as Hn3.
  valid_ratio application Hvalid Hdti.
  destruct (evaluate_application_cases application _ Hdti)
    as (decision & Heval & Hratio & _).
  split.
  - intros Hfinite.
    pose proof (number_is_not_nan _
                  (rounded_ratio_is_number _ _ Hincome Hdebts Hfinite)) as Hn4.
    unfold create_application. rewrite Heval. simpl.
    unfold session_add_commit_refresh. simpl.
    rewrite Hscore64, Hn1, Hn2, Hn3, Hratio, Hn4, Hint, Hfree. simpl.
    eexists. eexists. reflexivity.
  - intros Hd Hi.
    assert (Hdebts_inf : LoanApplicationRequest.monthly_debts application = infinity).
    { apply Prim2SF_inj. rewrite Prim2SF_infinity.
      rewrite leb_spec, Prim2SF_zero in Hdebts.
      rewrite ltb_spec, Prim2SF_infinity in Hd.
      destruct (Prim2SF (LoanApplicationRequest.monthly_debts application))
        as [s | s | | s m e]; try destruct s; try discriminate; reflexivity. }
    assert (Hincome_inf : LoanApplicationRequest.monthly_income application = infinity).
    { apply Prim2SF_inj. rewrite Prim2SF_infinity.
      apply above_zero_iff in Hincome.
      rewrite ltb_spec, Prim2SF_infinity in Hi.
      destruct (Prim2SF (LoanApplicationRequest.monthly_income application))
        as [s | s | | s m e]; try destruct s; try discriminate; reflexivity. }
    assert (Hnan : LoanDecisionResponse.dti_ratio decision = nan).
    { rewrite Hratio, Hdebts_inf, Hincome_inf. vm_compute. reflexivity. }
    split.
    + exists decision. unfold simulate_approval. rewrite Heval. reflexivity.
    + unfold create_application. rewrite Heval. simpl.
      unfold session_add_commit_refresh. simpl.
      rewrite Hscore64, Hn1, Hn2, Hn3, Hnan. reflexivity.
Qed.

(** The application of the test suite is stored in a table whose only key
    is -5. *)
Lemma create_application_stores_unless_nan_witness :
  exists response db',
    create_application
      (LoanApplicationRequest.Build "Test User" 6000 2000 700 300000)
      1700000000 0
      [LoanApplication.Build (Some (-5)) "Jane Smith" 5000 1500 550 250000 30
         "declined" "" 0]
    = Ok (response, db').
Proof.
  apply (create_application_stores_unless_nan
           (LoanApplicationRequest.Build "Test User" 6000 2000 700 300000)
           1700000000 0
           [LoanApplication.Build (Some (-5)) "Jane Smith" 5000 1500 550 250000 30
              "declined" "" 0]).
  - vm_compute. reflexivity.
  - split.
    + repeat constructor; simpl; intuition discriminate.
    + repeat constructor. exists (-5). split; reflexivity.
  - intros i [ <- | [] ]. vm_compute. reflexivity.
  - left. vm_compute. reflexivity.
Defined.

(** Infinite debts on an infinite income pass validation and are approved
    with a ratio of nan, which the table refuses. *)
Example infinite_debts_and_income_not_stored :
  validation_errors
    (LoanApplicationRequest.Build "John Doe" infinity infinity 720 250000) = []
  /\ (exists message,
         simulate_approval
           (LoanApplicationRequest.Build "John Doe" infinity infinity 720 250000)
         = Ok (LoanDecisionResponse.Build "approved" message nan 720))
  /\ create_application
       (LoanApplicationRequest.Build "John Doe" infinity infinity 720 250000)
       1700000000 0 []
     = Raise (IntegrityError
                "NOT NULL constraint failed: loanapplication.dti_ratio").
Proof.
  split; [ vm_compute; reflexivity | ].
  split; [ eexists; vm_compute; reflexivity | vm_compute; reflexivity ].
Qed.
